(** * rdpy.protocol.rdp.tpdu: the X.224 / TPDU layer

    A shallow embedding of [rdpy/protocol/rdp/tpdu.py]: the three wire
    schemas ([TPDUConnectMessage], [TPDUDataHeader], [Negotiation]), the
    client automaton [TPDU] and the properties of both.

    The module only declares schemas and drives them; the serialization
    engine ([rdpy.network.type]), the layer base class
    ([rdpy.network.layer]) and the constant decorators
    ([rdpy.network.const]) live in other files of the repository.  Their
    models below are marked as such. *)

From Stdlib Require Import ZArith List String Bool Lia.
From Stdlib Require Import Init.Byte.
From coqutil Require Import Byte Word.LittleEndianList.
Import ListNotations.
Local Open Scope string_scope.
Local Open Scope list_scope.
Local Open Scope Z_scope.

(** ** Errors and streams *)

(** The exceptions that cross this layer.  [InvalidExpectedDataException]
    and [Exception] are raised by [tpdu.py] itself; the message is kept as
    the format string of the source together with the values substituted
    into it, and how Python renders them is not part of the model.
    [FormatError] (a constant field read with another value, spec section
    7) and [DecodeError] (a fixed-width read on too short a buffer) are the
    two failures of the serialization engine. *)
Inductive exn : Type :=
| InvalidExpectedDataException (fmt : string) (args : list Z)
| Exception (msg : string)
| FormatError
| DecodeError.

(** Modelled from the spec: the stream of [rdpy.network.type], which is
    not in this file.  A [Stream] is the unread part of the buffer: reading
    advances the position, and the position never moves back on the paths
    of this file.  A reader returns the decoded value with the rest of the
    stream, or the exception it raised. *)
Definition Stream : Type := list byte.

Definition dataLen (s : Stream) : nat := List.length s.

Definition reader (A : Type) : Type := Stream -> exn + (A * Stream).

Definition rret {A} (a : A) : reader A := fun s => inr (a, s).

Definition rbind {A B} (m : reader A) (k : A -> reader B) : reader B :=
  fun s => match m s with
           | inl e => inl e
           | inr (a, s') => k a s'
           end.

Declare Scope reader_scope.
Delimit Scope reader_scope with reader.
Notation "x <- m ;; k" := (rbind m (fun x => k))
  (at level 61, m at next level, right associativity) : reader_scope.

(** ** Fixed-width integers *)

(** Modelled from the spec: the binary field primitives of
    [rdpy.network.type] (spec sections 2 to 4): fixed-width integers of 8,
    16 and 32 bits in little or big endian, each carrying the three field
    behaviours [constant], [conditional] and [optional] and the flag that
    records whether decode consumed it.  A value is either plain or a
    closure evaluated when the field is written (the "computed" field); a
    closure of this file only reads the serialized size of the record that
    owns the field, and a [conditional] closure only reads the [code] of
    its owner, so each closure takes that one quantity as its argument. *)
Module SimpleType.

Inductive structFormat : Type := UInt8_t | UInt16Le_t | UInt16Be_t | UInt32Le_t.

Inductive CallableValue : Type :=
| val (z : Z)
| lazy (f : Z -> Z).

Definition call (v : CallableValue) (sizeof_self : Z) : Z :=
  match v with
  | val z => z
  | lazy f => f sizeof_self
  end.

Record t : Type := mk {
  fmt : structFormat;
  value : CallableValue;
  _conditional : Z -> bool;
  _constant : bool;
  _optional : bool;
  _is_readed : bool
}.

(** The value of a field that holds a plain value; every field that
    [tpdu.py] compares or formats does. *)
Definition get (x : t) : Z := call (value x) 0.

Definition width (f : structFormat) : nat :=
  match f with
  | UInt8_t => 1
  | UInt16Le_t | UInt16Be_t => 2
  | UInt32Le_t => 4
  end.

Definition pack (f : structFormat) (v : Z) : list byte :=
  match f with
  | UInt16Be_t => rev (le_split (width f) v)
  | _ => le_split (width f) v
  end.

Definition unpack (f : structFormat) (bs : list byte) : Z :=
  match f with
  | UInt16Be_t => le_combine (rev bs)
  | _ => le_combine bs
  end.

(** [==] and [!=] on fields compare the inner values. *)
Definition eqb (a b : t) : bool := get a =? get b.

Definition __sizeof__ (x : t) : Z := Z.of_nat (width (fmt x)).

Definition sizeof (self_code : Z) (x : t) : Z :=
  if _conditional x self_code then __sizeof__ x else 0.

Definition write (self_code sizeof_self : Z) (x : t) : list byte :=
  if _conditional x self_code
  then pack (fmt x) (call (value x) sizeof_self)
  else [].

Definition __read__ (x : t) : reader Z :=
  fun s =>
    if (dataLen s <? width (fmt x))%nat then inl DecodeError
    else inr (unpack (fmt x) (firstn (width (fmt x)) s), skipn (width (fmt x)) s).

Definition set_is_readed (b : bool) (x : t) : t :=
  mk (fmt x) (value x) (_conditional x) (_constant x) (_optional x) b.

Definition set_value (v : Z) (x : t) : t :=
  mk (fmt x) (val v) (_conditional x) (_constant x) (_optional x) (_is_readed x).

Definition read (self_code : Z) (x : t) : reader t :=
  if negb (_conditional x self_code) then rret (set_is_readed false x)
  else
    (v <- __read__ x ;;
     if _constant x && negb (v =? get x)
     then (fun _ => inl FormatError)
     else rret (set_value v (set_is_readed true x)))%reader.

Definition readType (self_code : Z) (x : t) : reader t :=
  fun s =>
    if (dataLen s =? 0)%nat && _optional x then inr (x, s)
    else read self_code x s.

End SimpleType.

Import SimpleType(val, lazy).

Definition always : Z -> bool := fun _ => true.

Definition UInt8 (value : SimpleType.CallableValue) : SimpleType.t :=
  SimpleType.mk SimpleType.UInt8_t value always false false false.
Definition UInt16Le (value : SimpleType.CallableValue) : SimpleType.t :=
  SimpleType.mk SimpleType.UInt16Le_t value always false false false.
Definition UInt16Be (value : SimpleType.CallableValue) : SimpleType.t :=
  SimpleType.mk SimpleType.UInt16Be_t value always false false false.
Definition UInt32Le (value : SimpleType.CallableValue) : SimpleType.t :=
  SimpleType.mk SimpleType.UInt32Le_t value always false false false.

Definition constant (x : SimpleType.t) : SimpleType.t :=
  SimpleType.mk (SimpleType.fmt x) (SimpleType.value x) (SimpleType._conditional x)
                true (SimpleType._optional x) (SimpleType._is_readed x).

Definition conditional (c : Z -> bool) (x : SimpleType.t) : SimpleType.t :=
  SimpleType.mk (SimpleType.fmt x) (SimpleType.value x) c
                (SimpleType._constant x) (SimpleType._optional x) (SimpleType._is_readed x).

(** ** Constants of the module (source lines 9 to 53) *)

(** Modelled from the spec: the decorators [@ConstAttributes] and
    [@TypeAttributes(T)] of [rdpy.network.const], which are not in this
    file.  Spec section 6 lists the values as typed discriminants (8-bit
    message and negotiation codes, 32-bit little-endian protocol
    identifiers and failure codes): every attribute [v] of a decorated
    class is the field [T(v)], with the default behaviours of a field. *)
Module MessageType.
Definition X224_TPDU_CONNECTION_REQUEST := UInt8 (val 0xE0).
Definition X224_TPDU_CONNECTION_CONFIRM := UInt8 (val 0xD0).
Definition X224_TPDU_DISCONNECT_REQUEST := UInt8 (val 0x80).
Definition X224_TPDU_DATA := UInt8 (val 0xF0).
Definition X224_TPDU_ERROR := UInt8 (val 0x70).
End MessageType.

Module NegociationType.
Definition TYPE_RDP_NEG_REQ := UInt8 (val 0x01).
Definition TYPE_RDP_NEG_RSP := UInt8 (val 0x02).
Definition TYPE_RDP_NEG_FAILURE := UInt8 (val 0x03).
End NegociationType.

Module Protocols.
Definition PROTOCOL_RDP := UInt32Le (val 0x00000000).
Definition PROTOCOL_SSL := UInt32Le (val 0x00000001).
Definition PROTOCOL_HYBRID := UInt32Le (val 0x00000002).
Definition PROTOCOL_HYBRID_EX := UInt32Le (val 0x00000008).
End Protocols.

Module NegotiationFailureCode.
Definition SSL_REQUIRED_BY_SERVER := UInt32Le (val 0x00000001).
Definition SSL_NOT_ALLOWED_BY_SERVER := UInt32Le (val 0x00000002).
Definition SSL_CERT_NOT_ON_SERVER := UInt32Le (val 0x00000003).
Definition INCONSISTENT_FLAGS := UInt32Le (val 0x00000004).
Definition HYBRID_REQUIRED_BY_SERVER := UInt32Le (val 0x00000005).
Definition SSL_WITH_USER_AUTH_REQUIRED_BY_SERVER := UInt32Le (val 0x00000006).
End NegotiationFailureCode.

(** ** Wire schemas *)

(** [Negotiation] (source lines 77 to 91).  The record and [init] are the
    fields of [__init__], in declaration order, with the behaviours given
    there; [sizeof], [write], [__read__] and [readType] are what the
    composite record of the engine does with those fields. *)
Module Negotiation.

Record t : Type := mk {
  _optional : bool;
  _is_readed : bool;
  code : SimpleType.t;
  flag : SimpleType.t;
  len : SimpleType.t;
  selectedProtocol : SimpleType.t;
  failureCode : SimpleType.t
}.

Definition init (optional : bool) : t :=
  {| _optional := optional;
     _is_readed := false;
     code := UInt8 (val 0);
     flag := UInt8 (val 0);
     len := constant (UInt16Le (val 0x0008));
     selectedProtocol :=
       conditional (fun self_code => self_code =? SimpleType.get NegociationType.TYPE_RDP_NEG_RSP)
                   (UInt32Le (val 0));
     failureCode :=
       conditional (fun self_code => self_code =? SimpleType.get NegociationType.TYPE_RDP_NEG_FAILURE)
                   (UInt32Le (val 0)) |}.

(** Attribute assignment replaces the field object, behaviours included. *)
Definition set_code (v : SimpleType.t) (self : t) : t :=
  mk (_optional self) (_is_readed self) v (flag self) (len self)
     (selectedProtocol self) (failureCode self).

Definition set_flag (v : SimpleType.t) (self : t) : t :=
  mk (_optional self) (_is_readed self) (code self) v (len self)
     (selectedProtocol self) (failureCode self).

Definition set_selectedProtocol (v : SimpleType.t) (self : t) : t :=
  mk (_optional self) (_is_readed self) (code self) (flag self) (len self)
     v (failureCode self).

Definition set_failureCode (v : SimpleType.t) (self : t) : t :=
  mk (_optional self) (_is_readed self) (code self) (flag self) (len self)
     (selectedProtocol self) v.

(** What the closures of the fields see of the record that owns them. *)
Definition self_code (self : t) : Z := SimpleType.get (code self).

(** Modelled from the spec: the composite walk of [CompositeType] in
    [rdpy.network.type] (spec sections 2 and 4.1): the size is the sum of
    the sizes of the fields whose predicate holds. *)
Definition __sizeof__ (self : t) : Z :=
  SimpleType.sizeof (self_code self) (code self)
  + SimpleType.sizeof (self_code self) (flag self)
  + SimpleType.sizeof (self_code self) (len self)
  + SimpleType.sizeof (self_code self) (selectedProtocol self)
  + SimpleType.sizeof (self_code self) (failureCode self).

Definition sizeof (self : t) : Z := __sizeof__ self.

(** Modelled from the spec: the composite walk of [CompositeType] (spec
    section 4.1): fields are written in declaration order, and a field
    whose predicate fails is left out of the byte stream. *)
Definition write (self : t) : list byte :=
  let c := self_code self in
  let sz := sizeof self in
  SimpleType.write c sz (code self)
  ++ SimpleType.write c sz (flag self)
  ++ SimpleType.write c sz (len self)
  ++ SimpleType.write c sz (selectedProtocol self)
  ++ SimpleType.write c sz (failureCode self).

(** Modelled from the spec: the composite walk of [CompositeType] (spec
    section 4.1): fields are read in declaration order, each predicate
    being evaluated on the code just read; the record is then marked as
    read. *)
Definition __read__ (self : t) : reader t :=
  (code' <- SimpleType.readType (self_code self) (code self) ;;
   let c := SimpleType.get code' in
   flag' <- SimpleType.readType c (flag self) ;;
   len' <- SimpleType.readType c (len self) ;;
   selectedProtocol' <- SimpleType.readType c (selectedProtocol self) ;;
   failureCode' <- SimpleType.readType c (failureCode self) ;;
   rret (mk (_optional self) true code' flag' len' selectedProtocol' failureCode'))%reader.

(** Modelled from the spec: the optional record of the engine (spec
    sections 2 and 4.1): when no byte remains an optional record is left
    untouched, its [_is_readed] flag still false, and that is not an
    error. *)
Definition readType (self : t) : reader t :=
  fun s =>
    if (dataLen s =? 0)%nat && _optional self then inr (self, s)
    else __read__ self s.

End Negotiation.

(** [TPDUConnectMessage] (source lines 55 to 65): [len] is computed from
    the size of the record, [padding] is a tuple of three plain fields and
    [protocolNeg] is the optional trailing record.  [sizeof], [write] and
    [__read__] are the composite walk of the engine, as for
    [Negotiation]; a tuple is walked element by element. *)
Module TPDUConnectMessage.

Record t : Type := mk {
  len : SimpleType.t;
  code : SimpleType.t;
  padding : SimpleType.t * SimpleType.t * SimpleType.t;
  protocolNeg : Negotiation.t
}.

Definition init : t :=
  {| len := UInt8 (lazy (fun sizeof_self => sizeof_self - 1));
     code := UInt8 (val 0);
     padding := (UInt16Be (val 0), UInt16Be (val 0), UInt8 (val 0));
     protocolNeg := Negotiation.init true |}.

Definition set_code (v : SimpleType.t) (self : t) : t :=
  mk (len self) v (padding self) (protocolNeg self).

Definition set_protocolNeg (v : Negotiation.t) (self : t) : t :=
  mk (len self) (code self) (padding self) v.

Definition self_code (self : t) : Z := SimpleType.get (code self).

Definition sizeof (self : t) : Z :=
  let c := self_code self in
  let '(p1, p2, p3) := padding self in
  SimpleType.sizeof c (len self)
  + SimpleType.sizeof c (code self)
  + (SimpleType.sizeof c p1 + SimpleType.sizeof c p2 + SimpleType.sizeof c p3)
  + Negotiation.sizeof (protocolNeg self).

Definition write (self : t) : list byte :=
  let c := self_code self in
  let sz := sizeof self in
  let '(p1, p2, p3) := padding self in
  SimpleType.write c sz (len self)
  ++ SimpleType.write c sz (code self)
  ++ (SimpleType.write c sz p1 ++ SimpleType.write c sz p2 ++ SimpleType.write c sz p3)
  ++ Negotiation.write (protocolNeg self).

Definition __read__ (self : t) : reader t :=
  let '(p1, p2, p3) := padding self in
  (len' <- SimpleType.readType (self_code self) (len self) ;;
   code' <- SimpleType.readType (self_code self) (code self) ;;
   let c := SimpleType.get code' in
   p1' <- SimpleType.readType c p1 ;;
   p2' <- SimpleType.readType c p2 ;;
   p3' <- SimpleType.readType c p3 ;;
   protocolNeg' <- Negotiation.readType (protocolNeg self) ;;
   rret (mk len' code' (p1', p2', p3') protocolNeg'))%reader.

Definition readType (self : t) : reader t := __read__ self.

End TPDUConnectMessage.

(** [TPDUDataHeader] (source lines 67 to 75): two constant bytes around
    the message type, which is a plain field initialised to
    [X224_TPDU_DATA].  The record has no [code] attribute and none of its
    fields is conditional, so the predicates are evaluated on 0. *)
Module TPDUDataHeader.

Record t : Type := mk {
  header : SimpleType.t;
  messageType : SimpleType.t;
  separator : SimpleType.t
}.

Definition init : t :=
  {| header := constant (UInt8 (val 2));
     messageType := MessageType.X224_TPDU_DATA;
     separator := constant (UInt8 (val 0x80)) |}.

Definition sizeof (self : t) : Z :=
  SimpleType.sizeof 0 (header self)
  + SimpleType.sizeof 0 (messageType self)
  + SimpleType.sizeof 0 (separator self).

Definition write (self : t) : list byte :=
  let sz := sizeof self in
  SimpleType.write 0 sz (header self)
  ++ SimpleType.write 0 sz (messageType self)
  ++ SimpleType.write 0 sz (separator self).

Definition __read__ (self : t) : reader t :=
  (header' <- SimpleType.readType 0 (header self) ;;
   messageType' <- SimpleType.readType 0 (messageType self) ;;
   separator' <- SimpleType.readType 0 (separator self) ;;
   rret (mk header' messageType' separator'))%reader.

Definition readType (self : t) : reader t := __read__ self.

End TPDUDataHeader.

(** [Stream.writeType] accepts a record, raw bytes or a tuple of such
    values; a tuple is written element by element. *)
Class WriteType (A : Type) : Type := { writeType : A -> list byte }.

#[export] Instance WriteType_Negotiation : WriteType Negotiation.t :=
  {| writeType := Negotiation.write |}.
#[export] Instance WriteType_TPDUConnectMessage : WriteType TPDUConnectMessage.t :=
  {| writeType := TPDUConnectMessage.write |}.
#[export] Instance WriteType_TPDUDataHeader : WriteType TPDUDataHeader.t :=
  {| writeType := TPDUDataHeader.write |}.
#[export] Instance WriteType_bytes : WriteType (list byte) :=
  {| writeType := fun s => s |}.
#[export] Instance WriteType_tuple {A B} `{WriteType A} `{WriteType B} : WriteType (A * B) :=
  {| writeType := fun p => writeType (fst p) ++ writeType (snd p) |}.

(** ** The TLS client context (source lines 190 to 199) *)
Module ClientTLSContext.

Inductive method : Type := TLSv1_METHOD.

Inductive option_flag : Type :=
| OP_numeric (z : Z)
| OP_DONT_INSERT_EMPTY_FRAGMENTS
| OP_TLS_BLOCK_PADDING_BUG.

Record t : Type := mk { context_method : method; context_options : list option_flag }.

Definition set_options (o : option_flag) (context : t) : t :=
  mk (context_method context) (context_options context ++ [o]).

Definition getContext : t :=
  let context := mk TLSv1_METHOD [] in
  let context := set_options (OP_numeric 0x00020000) context in
  let context := set_options OP_DONT_INSERT_EMPTY_FRAGMENTS context in
  let context := set_options OP_TLS_BLOCK_PADDING_BUG context in
  context.

End ClientTLSContext.

(** ** The client automaton (source lines 93 to 183) *)

(** What the layer does to its two neighbours, in call order.

    Modelled from the spec: the collaborators of spec section 6, which are
    outside this file: the transport ([send] of one serialized unit, the
    TLS upgrade) and the presentation layer ([connect] once the handshake
    is done, [recv] of a stream positioned after the data header). *)
Inductive event : Type :=
| transport_send (data : list byte)
| transport_startTLS (ctx : ClientTLSContext.t)
| presentation_connect
| presentation_recv (data : Stream).

Module TPDU.

(** The bound method currently installed as [self.recv]. *)
Inductive callback : Type :=
| cb_recv
| cb_recvConnectionConfirm
| cb_recvData.

Record t : Type := mk {
  _requestedProtocol : SimpleType.t;
  _selectedProtocol : SimpleType.t;
  recv_callback : callback
}.

Record world : Type := mkWorld { self : t; trace : list event }.

(** Methods run in a state and exception monad: a raised exception keeps
    every assignment and every call made before it. *)
Definition M (A : Type) : Type := world -> (exn + A) * world.

Definition ret {A} (a : A) : M A := fun w => (inr a, w).

Definition bind {A B} (m : M A) (k : A -> M B) : M B :=
  fun w => match m w with
           | (inl e, w') => (inl e, w')
           | (inr a, w') => k a w'
           end.

Definition raise {A} (e : exn) : M A := fun w => (inl e, w).

Definition emit (e : event) : M unit :=
  fun w => (inr tt, mkWorld (self w) (trace w ++ [e])).

Definition get_self : M t := fun w => (inr (self w), w).

Definition put_self (s : t) : M unit := fun w => (inr tt, mkWorld s (trace w)).

(** [data.readType(message)]: the decoded record, or the exception of the
    engine. *)
Definition stream_readType {A} (r : reader A) (data : Stream) : M (A * Stream) :=
  fun w => match r data with
           | inl e => (inl e, w)
           | inr res => (inr res, w)
           end.

Declare Scope tpdu_scope.
Delimit Scope tpdu_scope with tpdu.
Notation "x <- m ;; k" := (bind m (fun x => k))
  (at level 61, m at next level, right associativity) : tpdu_scope.
Notation "m ;; k" := (bind m (fun _ => k))
  (at level 61, right associativity) : tpdu_scope.
Local Open Scope tpdu_scope.

Definition __init__ : t :=
  {| _requestedProtocol := Protocols.PROTOCOL_SSL;
     _selectedProtocol := Protocols.PROTOCOL_SSL;
     recv_callback := cb_recv |}.

(** Modelled from the spec: [LayerAutomata] of [rdpy.network.layer] (spec
    sections 4.4 and 6): [setNextState] installs the next receive handler,
    [connect] and [recv] of the base class hand over to the presentation
    layer. *)
Definition setNextState (callback : callback) : M unit :=
  s <- get_self ;;
  put_self (mk (_requestedProtocol s) (_selectedProtocol s) callback).

Definition LayerAutomata_connect : M unit := emit presentation_connect.

Definition LayerAutomata_recv (data : Stream) : M unit := emit (presentation_recv data).

Definition transport_send_ {A} `{WriteType A} (message : A) : M unit :=
  emit (transport_send (writeType message)).

Definition set__selectedProtocol (v : SimpleType.t) : M unit :=
  s <- get_self ;;
  put_self (mk (_requestedProtocol s) v (recv_callback s)).

Definition recvConnectionConfirm (data : Stream) : M unit :=
  r <- stream_readType (TPDUConnectMessage.readType TPDUConnectMessage.init) data ;;
  let message := fst r in
  if negb (SimpleType.eqb (TPDUConnectMessage.code message)
                          MessageType.X224_TPDU_CONNECTION_CONFIRM)
  then raise (InvalidExpectedDataException
                "invalid TPDU header code X224_TPDU_CONNECTION_CONFIRM != %d"
                [SimpleType.get (TPDUConnectMessage.code message)])
  else
  if negb (Negotiation._is_readed (TPDUConnectMessage.protocolNeg message))
  then raise (InvalidExpectedDataException
                "server must support negotiation protocol to use SSL" [])
  else
  if SimpleType._is_readed
       (Negotiation.failureCode (TPDUConnectMessage.protocolNeg message))
  then raise (InvalidExpectedDataException
                "negotiation failure code %x"
                [SimpleType.get
                   (Negotiation.failureCode (TPDUConnectMessage.protocolNeg message))])
  else
  set__selectedProtocol
    (Negotiation.selectedProtocol (TPDUConnectMessage.protocolNeg message)) ;;
  s <- get_self ;;
  if negb (SimpleType.eqb (_selectedProtocol s) Protocols.PROTOCOL_SSL)
  then raise (InvalidExpectedDataException
                "only ssl protocol is supported in RDPY version" [])
  else
  emit (transport_startTLS ClientTLSContext.getContext) ;;
  setNextState cb_recvData ;;
  LayerAutomata_connect.

Definition recvData (data : Stream) : M unit :=
  r <- stream_readType (TPDUDataHeader.readType TPDUDataHeader.init) data ;;
  let header := fst r in
  let data := snd r in
  if SimpleType.eqb (TPDUDataHeader.messageType header) MessageType.X224_TPDU_DATA
  then LayerAutomata_recv data
  else if SimpleType.eqb (TPDUDataHeader.messageType header) MessageType.X224_TPDU_ERROR
  then raise (Exception "receive error from tpdu layer")
  else raise (InvalidExpectedDataException
                "unknow tpdu code %s"
                [SimpleType.get (TPDUDataHeader.messageType header)]).

Definition sendConnectionRequest : M unit :=
  s <- get_self ;;
  let message := TPDUConnectMessage.init in
  let message :=
    TPDUConnectMessage.set_code MessageType.X224_TPDU_CONNECTION_REQUEST message in
  let message :=
    TPDUConnectMessage.set_protocolNeg
      (Negotiation.set_code NegociationType.TYPE_RDP_NEG_REQ
         (TPDUConnectMessage.protocolNeg message)) message in
  let message :=
    TPDUConnectMessage.set_protocolNeg
      (Negotiation.set_selectedProtocol (_requestedProtocol s)
         (TPDUConnectMessage.protocolNeg message)) message in
  transport_send_ message ;;
  setNextState cb_recvConnectionConfirm.

Definition connect : M unit := sendConnectionRequest.

Definition send {A} `{WriteType A} (message : A) : M unit :=
  transport_send_ (TPDUDataHeader.init, message).

(** The receive entry point: the transport calls whatever [self.recv]
    currently is. *)
Definition recv (data : Stream) : M unit :=
  fun w => match recv_callback (self w) with
           | cb_recv => LayerAutomata_recv data w
           | cb_recvConnectionConfirm => recvConnectionConfirm data w
           | cb_recvData => recvData data w
           end.

Definition count_startTLS (tr : list event) : nat :=
  List.length (List.filter (fun e => match e with transport_startTLS _ => true | _ => false end) tr).

End TPDU.


(** ** Decoded records

    The records that the readers below are shown to produce. *)

Definition data_header_read (mt : byte) : TPDUDataHeader.t :=
  TPDUDataHeader.mk
    (SimpleType.mk SimpleType.UInt8_t (val 2) always true false true)
    (SimpleType.mk SimpleType.UInt8_t (val (byte.unsigned mt)) always false false true)
    (SimpleType.mk SimpleType.UInt8_t (val 0x80) always true false true).


(** A negotiation block as [Negotiation(optional)] builds it, with the
    four values stored into its fields ([field.value = v]); every field
    keeps the behaviours that [__init__] gave it. *)
Definition Negotiation_with (optional : bool) (c f sp fc : Z) : Negotiation.t :=
  let n := Negotiation.init optional in
  Negotiation.mk (Negotiation._optional n) (Negotiation._is_readed n)
    (SimpleType.set_value c (Negotiation.code n))
    (SimpleType.set_value f (Negotiation.flag n))
    (Negotiation.len n)
    (SimpleType.set_value sp (Negotiation.selectedProtocol n))
    (SimpleType.set_value fc (Negotiation.failureCode n)).

(** The state of a client that has sent its request and waits for the
    confirm. *)
Definition awaiting_confirm : TPDU.world :=
  TPDU.mkWorld
    (TPDU.mk Protocols.PROTOCOL_SSL Protocols.PROTOCOL_SSL TPDU.cb_recvConnectionConfirm)
    [].

(** The state of a client after a successful handshake. *)
Definition data_exchange : TPDU.world :=
  TPDU.mkWorld
    (TPDU.mk Protocols.PROTOCOL_SSL Protocols.PROTOCOL_SSL TPDU.cb_recvData)
    [].

(** What decoding leaves in a fresh [Negotiation(optional)] after a block
    with code [c]: the three leading fields are read, each conditional
    field is read exactly when its predicate holds for [c] and otherwise
    keeps the value the constructor gave it. *)
Definition Negotiation_read (optional : bool) (c f sp fc : Z) : Negotiation.t :=
  Negotiation.mk optional true
    (SimpleType.mk SimpleType.UInt8_t (val c) always false false true)
    (SimpleType.mk SimpleType.UInt8_t (val f) always false false true)
    (SimpleType.mk SimpleType.UInt16Le_t (val 8) always true false true)
    (SimpleType.mk SimpleType.UInt32Le_t (val (if c =? 2 then sp else 0))
       (fun self_code => self_code =? SimpleType.get NegociationType.TYPE_RDP_NEG_RSP)
       false false (c =? 2))
    (SimpleType.mk SimpleType.UInt32Le_t (val (if c =? 3 then fc else 0))
       (fun self_code => self_code =? SimpleType.get NegociationType.TYPE_RDP_NEG_FAILURE)
       false false (c =? 3)).

(** What decoding leaves in a fresh [TPDUConnectMessage()]: the seven
    leading bytes are always read, [neg] is the state of the optional
    block. *)
Definition TPDUConnectMessage_read (l c p1 p2 p3 : Z) (neg : Negotiation.t)
  : TPDUConnectMessage.t :=
  TPDUConnectMessage.mk
    (SimpleType.mk SimpleType.UInt8_t (val l) always false false true)
    (SimpleType.mk SimpleType.UInt8_t (val c) always false false true)
    (SimpleType.mk SimpleType.UInt16Be_t (val p1) always false false true,
     SimpleType.mk SimpleType.UInt16Be_t (val p2) always false false true,
     SimpleType.mk SimpleType.UInt8_t (val p3) always false false true)
    neg.

(** ** Sample buffers

    A confirm that selects TLS, a confirm that reports failure code 2, a
    confirm without negotiation block and a confirm that selects the hybrid
    protocol. *)
Definition confirm_ssl : Stream :=
  [x0e; xd0; x00; x00; x00; x00; x00; x02; x00; x08; x00; x01; x00; x00; x00].

Definition confirm_failure : Stream :=
  [x0e; xd0; x00; x00; x00; x00; x00; x03; x00; x08; x00; x02; x00; x00; x00].

Definition confirm_no_negotiation : Stream :=
  [x06; xd0; x00; x00; x00; x00; x00].

Definition confirm_hybrid : Stream :=
  [x0e; xd0; x00; x00; x00; x00; x00; x02; x00; x08; x00; x02; x00; x00; x00].

(** The connection request of a client that asks for protocol 1. *)
Definition connection_request_ssl : Stream :=
  [x0e; xe0; x00; x00; x00; x00; x00; x01; x00; x08; x00; x01; x00; x00; x00].

(** ** Users of the layer

    The three entry points of the class as a caller sees them: [connect]
    and [send] are called by the layer above, [recv] by the transport.  A
    raised exception reaches the caller; the object lives on with the
    attributes it had when the exception was raised. *)
Inductive method_call : Type :=
| call_connect
| call_recv (data : Stream)
| call_send (payload : list byte).

Definition invoke (c : method_call) : TPDU.M unit :=
  match c with
  | call_connect => TPDU.connect
  | call_recv data => TPDU.recv data
  | call_send payload => TPDU.send payload
  end.

Definition after (c : method_call) (w : TPDU.world) : TPDU.world := snd (invoke c w).

Fixpoint run (cs : list method_call) (w : TPDU.world) : TPDU.world :=
  match cs with
  | [] => w
  | c :: cs' => run cs' (after c w)
  end.

Definition count_presentation_connect (tr : list event) : nat :=
  List.length
    (List.filter (fun e => match e with presentation_connect => true | _ => false end) tr).

Definition returned (r : exn + unit) : bool :=
  match r with
  | inr _ => true
  | inl _ => false
  end.

(** The message that [code = c; protocolNeg = neg] leaves in a fresh
    [TPDUConnectMessage()]. *)
Definition TPDUConnectMessage_with (c : SimpleType.t) (neg : Negotiation.t)
  : TPDUConnectMessage.t :=
  TPDUConnectMessage.set_protocolNeg neg
    (TPDUConnectMessage.set_code c TPDUConnectMessage.init).

(** The four exceptions that [recvConnectionConfirm] raises itself. *)
Definition invalid_header_code (c : Z) : exn :=
  InvalidExpectedDataException
    "invalid TPDU header code X224_TPDU_CONNECTION_CONFIRM != %d" [c].

Definition negotiation_required : exn :=
  InvalidExpectedDataException "server must support negotiation protocol to use SSL" [].

Definition negotiation_failure (failureCode : Z) : exn :=
  InvalidExpectedDataException "negotiation failure code %x" [failureCode].

Definition only_ssl : exn :=
  InvalidExpectedDataException "only ssl protocol is supported in RDPY version" [].

(** * Properties *)

(** ** Reading one field *)

#[local] Arguments SimpleType.readType : simpl never.

Lemma le_combine_one (b : byte) : le_combine [b] = byte.unsigned b.
Proof. apply le_combine_1. Qed.

Lemma unsigned_eqb_of_Z (b : byte) (k : Z) :
  (byte.unsigned b =? k) = true -> b = byte.of_Z k.
Proof.
  intros H. apply Z.eqb_eq in H. subst k. symmetry. apply byte.of_Z_unsigned.
Qed.

(** A one-byte field that is active consumes exactly the first byte; a
    constant one checks it against its expected value. *)
Lemma readType_UInt8_cons (c : Z) (x : SimpleType.t) (b : byte) (s : Stream) :
  SimpleType.fmt x = SimpleType.UInt8_t ->
  SimpleType._conditional x c = true ->
  SimpleType.readType c x (b :: s) =
    if SimpleType._constant x && negb (byte.unsigned b =? SimpleType.get x)
    then inl FormatError
    else inr (SimpleType.set_value (byte.unsigned b) (SimpleType.set_is_readed true x), s).
Proof.
  intros Hf Hc.
  unfold SimpleType.readType, SimpleType.read, SimpleType.__read__, rbind, rret.
  rewrite Hc, Hf. cbn [dataLen List.length Nat.eqb andb negb SimpleType.width Nat.ltb Nat.leb
                       firstn skipn SimpleType.unpack].
  rewrite le_combine_one.
  destruct (SimpleType._constant x && negb (byte.unsigned b =? SimpleType.get x)); reflexivity.
Qed.

Lemma readType_nil (c : Z) (x : SimpleType.t) :
  SimpleType._conditional x c = true ->
  SimpleType._optional x = false ->
  SimpleType.readType c x [] = inl DecodeError.
Proof.
  intros Hc Ho.
  unfold SimpleType.readType, SimpleType.read, SimpleType.__read__, rbind.
  rewrite Hc, Ho. destruct (SimpleType.fmt x); reflexivity.
Qed.

(** ** The data header *)

Lemma TPDUDataHeader_readType_ok (mt : byte) (rest : Stream) :
  TPDUDataHeader.readType TPDUDataHeader.init (x02 :: mt :: x80 :: rest)
  = inr (data_header_read mt, rest).
Proof.
  unfold TPDUDataHeader.readType, TPDUDataHeader.__read__, rbind, rret.
  cbn [TPDUDataHeader.init TPDUDataHeader.header TPDUDataHeader.messageType
       TPDUDataHeader.separator].
  repeat (rewrite readType_UInt8_cons by reflexivity; cbn).
  reflexivity.
Qed.

(** Decoding a data header succeeds on exactly the buffers that start with
    [02 mt 80]. *)
Lemma TPDUDataHeader_readType_inv (data : Stream) (h : TPDUDataHeader.t) (rest : Stream) :
  TPDUDataHeader.readType TPDUDataHeader.init data = inr (h, rest) ->
  exists mt, data = x02 :: mt :: x80 :: rest /\ h = data_header_read mt.
Proof.
  unfold TPDUDataHeader.readType, TPDUDataHeader.__read__, rbind, rret.
  cbn [TPDUDataHeader.init TPDUDataHeader.header TPDUDataHeader.messageType
       TPDUDataHeader.separator].
  destruct data as [|b0 data].
  { rewrite readType_nil by reflexivity. discriminate. }
  rewrite readType_UInt8_cons by reflexivity.
  cbn [SimpleType._constant constant UInt8 andb SimpleType.get SimpleType.value SimpleType.call].
  destruct (byte.unsigned b0 =? 2) eqn:E0; cbn [negb]; [|discriminate].
  apply unsigned_eqb_of_Z in E0. subst b0.
  destruct data as [|mt data].
  { rewrite readType_nil by reflexivity. discriminate. }
  rewrite readType_UInt8_cons by reflexivity.
  cbn [SimpleType._constant MessageType.X224_TPDU_DATA UInt8 andb].
  destruct data as [|b2 data].
  { rewrite readType_nil by reflexivity. discriminate. }
  rewrite readType_UInt8_cons by reflexivity.
  cbn [SimpleType._constant constant UInt8 andb SimpleType.get SimpleType.value SimpleType.call].
  destruct (byte.unsigned b2 =? 0x80) eqn:E2; cbn [negb]; [|discriminate].
  apply unsigned_eqb_of_Z in E2. subst b2.
  intros H. injection H as <- <-. exists mt. split; reflexivity.
Qed.

(** C3: in the data-exchange handler, a buffer whose data header decodes is
    the three header bytes followed by the rest, and [recvData] then acts
    on the message type alone: [X224_TPDU_DATA] hands the rest of the
    buffer, unchanged, to the presentation layer; [X224_TPDU_ERROR] raises
    the fatal peer error; every other value raises the unknown-code
    error.  Nothing else is done in any of the three cases. *)
Theorem recvData_dispatch
  (data : Stream) (header : TPDUDataHeader.t) (rest : Stream) (w : TPDU.world) :
  TPDUDataHeader.readType TPDUDataHeader.init data = inr (header, rest) ->
  let mt := SimpleType.get (TPDUDataHeader.messageType header) in
  data = x02 :: byte.of_Z mt :: x80 :: rest
  /\ (mt = 0xF0 ->
      TPDU.recvData data w
      = (inr tt, TPDU.mkWorld (TPDU.self w) (TPDU.trace w ++ [presentation_recv rest])))
  /\ (mt = 0x70 ->
      TPDU.recvData data w = (inl (Exception "receive error from tpdu layer"), w))
  /\ (mt <> 0xF0 -> mt <> 0x70 ->
      TPDU.recvData data w
      = (inl (InvalidExpectedDataException "unknow tpdu code %s" [mt]), w)).
Proof.
  intros Hread mt.
  assert (Hrun : TPDU.recvData data w =
    if mt =? 0xF0 then TPDU.LayerAutomata_recv rest w
    else if mt =? 0x70 then (inl (Exception "receive error from tpdu layer"), w)
    else (inl (InvalidExpectedDataException "unknow tpdu code %s" [mt]), w)).
  { unfold TPDU.recvData, TPDU.bind, TPDU.stream_readType. rewrite Hread.
    cbn [fst snd]. unfold SimpleType.eqb. fold mt.
    change (SimpleType.get MessageType.X224_TPDU_DATA) with 0xF0.
    change (SimpleType.get MessageType.X224_TPDU_ERROR) with 0x70.
    destruct (mt =? 0xF0); [reflexivity|]. destruct (mt =? 0x70); reflexivity. }
  destruct (TPDUDataHeader_readType_inv _ _ _ Hread) as (b & Hdata & Hh).
  repeat split.
  - subst data header. unfold mt. cbn [data_header_read TPDUDataHeader.messageType].
    unfold SimpleType.get. cbn [SimpleType.value SimpleType.call].
    now rewrite byte.of_Z_unsigned.
  - intros E. rewrite Hrun, E. reflexivity.
  - intros E. rewrite Hrun, E. reflexivity.
  - intros E1 E2. rewrite Hrun.
    destruct (Z.eqb_spec mt 0xF0); [contradiction|].
    destruct (Z.eqb_spec mt 0x70); [contradiction|]. reflexivity.
Qed.

Lemma recvData_dispatch_witness :
  TPDU.recvData [x02; xf0; x80; x41; x42] data_exchange
  = (inr tt,
     TPDU.mkWorld (TPDU.self data_exchange) [presentation_recv [x41; x42]]).
Proof.
  destruct (recvData_dispatch [x02; xf0; x80; x41; x42] (data_header_read xf0)
              [x41; x42] data_exchange eq_refl) as (_ & H & _).
  apply H. reflexivity.
Defined.

(** ** Sending *)

Lemma TPDUDataHeader_write_init : TPDUDataHeader.write TPDUDataHeader.init = [x02; xf0; x80].
Proof. reflexivity. Qed.

(** Whatever the payload type, [send] makes one call to the transport, with
    the pair of a fresh header and the payload. *)
Lemma send_pair {A} `{WriteType A} (message : A) (w : TPDU.world) :
  TPDU.send message w
  = (inr tt,
     TPDU.mkWorld (TPDU.self w)
       (TPDU.trace w ++ [transport_send (writeType (TPDUDataHeader.init, message))])).
Proof. reflexivity. Qed.

(** C7: [send] hands the transport one unit, the bytes [02 F0 80] followed
    by the payload as it is; the automaton itself is left as it was. *)
Theorem send_prepends_data_header (payload : list byte) (w : TPDU.world) :
  TPDU.send payload w
  = (inr tt,
     TPDU.mkWorld (TPDU.self w)
       (TPDU.trace w ++ [transport_send (x02 :: xf0 :: x80 :: payload)])).
Proof.
  rewrite send_pair. cbn [writeType WriteType_tuple WriteType_TPDUDataHeader
                          WriteType_bytes fst snd].
  rewrite TPDUDataHeader_write_init. reflexivity.
Qed.

(** ** Writing then reading one field *)

Lemma firstn_length_app {A} (l r : list A) : firstn (List.length l) (l ++ r) = l.
Proof. induction l as [|a l IH]; cbn; [now destruct r | now rewrite IH]. Qed.

Lemma skipn_length_app {A} (l r : list A) : skipn (List.length l) (l ++ r) = r.
Proof. induction l as [|a l IH]; cbn; auto. Qed.

Lemma length_pack (f : SimpleType.structFormat) (v : Z) :
  List.length (SimpleType.pack f v) = SimpleType.width f.
Proof.
  destruct f; unfold SimpleType.pack; rewrite ?length_rev; apply length_le_split.
Qed.

Lemma unpack_pack (f : SimpleType.structFormat) (v : Z) :
  SimpleType.unpack f (SimpleType.pack f v) = v mod 2 ^ (Z.of_nat (SimpleType.width f) * 8).
Proof.
  destruct f; unfold SimpleType.pack, SimpleType.unpack;
    rewrite ?rev_involutive; apply le_combine_split.
Qed.

Lemma width_pos (f : SimpleType.structFormat) : (0 < SimpleType.width f)%nat.
Proof. destruct f; cbn; lia. Qed.

(** An active field reads back what was packed, reduced to its width. *)
Lemma readType_pack (c : Z) (x : SimpleType.t) (v : Z) (rest : Stream) :
  SimpleType._conditional x c = true ->
  SimpleType.readType c x (SimpleType.pack (SimpleType.fmt x) v ++ rest) =
    let v' := v mod 2 ^ (Z.of_nat (SimpleType.width (SimpleType.fmt x)) * 8) in
    if SimpleType._constant x && negb (v' =? SimpleType.get x)
    then inl FormatError
    else inr (SimpleType.set_value v' (SimpleType.set_is_readed true x), rest).
Proof.
  intros Hc.
  pose proof (length_pack (SimpleType.fmt x) v) as Hl.
  pose proof (width_pos (SimpleType.fmt x)) as Hw.
  assert (Hf : firstn (SimpleType.width (SimpleType.fmt x))
                 (SimpleType.pack (SimpleType.fmt x) v ++ rest)
               = SimpleType.pack (SimpleType.fmt x) v)
    by (rewrite <- Hl; apply firstn_length_app).
  assert (Hs : skipn (SimpleType.width (SimpleType.fmt x))
                 (SimpleType.pack (SimpleType.fmt x) v ++ rest) = rest)
    by (rewrite <- Hl; apply skipn_length_app).
  unfold SimpleType.readType, dataLen. rewrite length_app, Hl.
  replace (SimpleType.width (SimpleType.fmt x) + List.length rest =? 0)%nat with false
    by (symmetry; apply Nat.eqb_neq; lia).
  cbn [andb]. unfold SimpleType.read. rewrite Hc. cbn [negb].
  unfold rbind, SimpleType.__read__, dataLen. rewrite length_app, Hl.
  replace (SimpleType.width (SimpleType.fmt x) + List.length rest
           <? SimpleType.width (SimpleType.fmt x))%nat with false
    by (symmetry; apply Nat.ltb_ge; lia).
  rewrite Hf, Hs, unpack_pack. cbv zeta. unfold rret.
  destruct (SimpleType._constant x && _); reflexivity.
Qed.

(** An inactive field takes nothing from the stream and is marked as not
    read. *)
Lemma readType_inactive (c : Z) (x : SimpleType.t) (s : Stream) :
  SimpleType._conditional x c = false ->
  SimpleType._optional x = false ->
  SimpleType.readType c x s = inr (SimpleType.set_is_readed false x, s).
Proof.
  intros Hc Ho. unfold SimpleType.readType, SimpleType.read.
  rewrite Hc, Ho, andb_false_r. reflexivity.
Qed.

Lemma write_active (c sz : Z) (x : SimpleType.t) :
  SimpleType._conditional x c = true ->
  SimpleType.write c sz x
  = SimpleType.pack (SimpleType.fmt x) (SimpleType.call (SimpleType.value x) sz).
Proof. intros Hc. unfold SimpleType.write. now rewrite Hc. Qed.

Lemma write_inactive (c sz : Z) (x : SimpleType.t) :
  SimpleType._conditional x c = false -> SimpleType.write c sz x = [].
Proof. intros Hc. unfold SimpleType.write. now rewrite Hc. Qed.

(** ** The negotiation block *)

Lemma readType_pack_ok (c : Z) (x : SimpleType.t) (v : Z) (rest : Stream) :
  SimpleType._conditional x c = true ->
  (SimpleType._constant x = true -> v = SimpleType.get x) ->
  0 <= v < 2 ^ (Z.of_nat (SimpleType.width (SimpleType.fmt x)) * 8) ->
  SimpleType.readType c x (SimpleType.pack (SimpleType.fmt x) v ++ rest)
  = inr (SimpleType.set_value v (SimpleType.set_is_readed true x), rest).
Proof.
  intros Hc Hk Hv. rewrite readType_pack by assumption. cbv zeta.
  rewrite Z.mod_small by assumption.
  destruct (SimpleType._constant x); [|reflexivity].
  rewrite <- Hk by reflexivity. now rewrite Z.eqb_refl.
Qed.

(** The bytes of a block: the conditional fields appear only under their
    own code. *)
Lemma Negotiation_write_with (optional : bool) (c f sp fc : Z) :
  Negotiation.write (Negotiation_with optional c f sp fc)
  = SimpleType.pack SimpleType.UInt8_t c
    ++ SimpleType.pack SimpleType.UInt8_t f
    ++ SimpleType.pack SimpleType.UInt16Le_t 8
    ++ (if c =? 2 then SimpleType.pack SimpleType.UInt32Le_t sp else [])
    ++ (if c =? 3 then SimpleType.pack SimpleType.UInt32Le_t fc else []).
Proof. reflexivity. Qed.

Ltac read_field :=
  first
    [ rewrite readType_pack_ok by (first [reflexivity | discriminate | cbn; lia])
    | rewrite readType_inactive by reflexivity ];
  cbv beta iota.

Lemma Negotiation_readType_write (optional : bool) (c f sp fc : Z) (rest : Stream) :
  c = 1 \/ c = 2 \/ c = 3 ->
  0 <= f < 2 ^ 8 -> 0 <= sp < 2 ^ 32 -> 0 <= fc < 2 ^ 32 ->
  Negotiation.readType (Negotiation.init optional)
    (Negotiation.write (Negotiation_with optional c f sp fc) ++ rest)
  = inr (Negotiation_read optional c f sp fc, rest).
Proof.
  intros Hc Hf Hsp Hfc.
  rewrite Negotiation_write_with.
  assert (Hnonempty :
    forall t, Negotiation.readType (Negotiation.init optional)
                (SimpleType.pack SimpleType.UInt8_t c ++ t)
              = Negotiation.__read__ (Negotiation.init optional)
                  (SimpleType.pack SimpleType.UInt8_t c ++ t)) by reflexivity.
  rewrite <- !app_assoc, Hnonempty.
  unfold Negotiation.__read__, rbind.
  destruct Hc as [-> | [-> | ->]]; cbn [Z.eqb Pos.eqb app];
    do 5 read_field; reflexivity.
Qed.

(** C8: for each of the three negotiation codes, a block written by the
    schema and read back into a fresh block gives the same [code], [flag]
    and [len]; [selectedProtocol] is present after the read exactly under
    the response code and [failureCode] exactly under the failure code,
    each with the value that was written, and under the request code
    neither is present.  The block takes eight bytes when a conditional
    field is present and four otherwise, and the bytes that follow it are
    left in the stream. *)
Theorem Negotiation_roundtrip (optional : bool) (c f sp fc : Z) (rest : Stream) :
  c = 1 \/ c = 2 \/ c = 3 ->
  0 <= f < 2 ^ 8 -> 0 <= sp < 2 ^ 32 -> 0 <= fc < 2 ^ 32 ->
  let n := Negotiation_with optional c f sp fc in
  exists n',
    Negotiation.readType (Negotiation.init optional) (Negotiation.write n ++ rest)
    = inr (n', rest)
    /\ Negotiation._is_readed n' = true
    /\ SimpleType.get (Negotiation.code n') = SimpleType.get (Negotiation.code n)
    /\ SimpleType.get (Negotiation.code n') = c
    /\ SimpleType.get (Negotiation.flag n') = SimpleType.get (Negotiation.flag n)
    /\ SimpleType.get (Negotiation.len n') = SimpleType.get (Negotiation.len n)
    /\ SimpleType._is_readed (Negotiation.selectedProtocol n') = (c =? 2)
    /\ SimpleType._is_readed (Negotiation.failureCode n') = (c =? 3)
    /\ (c = 2 -> SimpleType.get (Negotiation.selectedProtocol n')
                 = SimpleType.get (Negotiation.selectedProtocol n))
    /\ (c = 3 -> SimpleType.get (Negotiation.failureCode n')
                 = SimpleType.get (Negotiation.failureCode n))
    /\ List.length (Negotiation.write n) = if c =? 1 then 4%nat else 8%nat.
Proof.
  intros Hc Hf Hsp Hfc n. exists (Negotiation_read optional c f sp fc).
  split; [now apply Negotiation_readType_write|].
  repeat split; try reflexivity.
  - intros ->. reflexivity.
  - intros ->. reflexivity.
  - unfold n. rewrite Negotiation_write_with.
    destruct Hc as [-> | [-> | ->]]; reflexivity.
Qed.

Lemma Negotiation_roundtrip_witness :
  exists n',
    Negotiation.readType (Negotiation.init true)
      (Negotiation.write (Negotiation_with true 2 0 1 0) ++ [x41])
    = inr (n', [x41])
    /\ SimpleType._is_readed (Negotiation.selectedProtocol n') = true
    /\ SimpleType._is_readed (Negotiation.failureCode n') = false
    /\ SimpleType.get (Negotiation.selectedProtocol n') = 1.
Proof.
  destruct (Negotiation_roundtrip true 2 0 1 0 [x41]) as (n' & Hr & _ & _ & _ & _ & _ & Hs & Hfl & Hv & _);
    [right; left; reflexivity | lia | lia | lia |].
  exists n'. repeat split; [exact Hr | exact Hs | exact Hfl | exact (Hv eq_refl)].
Defined.

(** ** The connection message *)

Lemma readType_bytes (c : Z) (x : SimpleType.t) (bs rest : Stream) :
  List.length bs = SimpleType.width (SimpleType.fmt x) ->
  SimpleType._conditional x c = true ->
  SimpleType._constant x = false ->
  SimpleType.readType c x (bs ++ rest)
  = inr (SimpleType.set_value (SimpleType.unpack (SimpleType.fmt x) bs)
           (SimpleType.set_is_readed true x), rest).
Proof.
  intros Hl Hc Hk.
  pose proof (width_pos (SimpleType.fmt x)) as Hw.
  unfold SimpleType.readType, dataLen. rewrite length_app, Hl.
  replace (SimpleType.width (SimpleType.fmt x) + List.length rest =? 0)%nat with false
    by (symmetry; apply Nat.eqb_neq; lia).
  cbn [andb]. unfold SimpleType.read. rewrite Hc. cbn [negb].
  unfold rbind, SimpleType.__read__, dataLen. rewrite length_app, Hl.
  replace (SimpleType.width (SimpleType.fmt x) + List.length rest
           <? SimpleType.width (SimpleType.fmt x))%nat with false
    by (symmetry; apply Nat.ltb_ge; lia).
  rewrite <- Hl, firstn_length_app, skipn_length_app, Hk. reflexivity.
Qed.

Lemma readType_one (c : Z) (x : SimpleType.t) (a : byte) (rest : Stream) :
  SimpleType.width (SimpleType.fmt x) = 1%nat ->
  SimpleType._conditional x c = true ->
  SimpleType._constant x = false ->
  SimpleType.readType c x (a :: rest)
  = inr (SimpleType.set_value (SimpleType.unpack (SimpleType.fmt x) [a])
           (SimpleType.set_is_readed true x), rest).
Proof. intros Hw. apply (readType_bytes c x [a] rest). now rewrite Hw. Qed.

Lemma readType_two (c : Z) (x : SimpleType.t) (a b : byte) (rest : Stream) :
  SimpleType.width (SimpleType.fmt x) = 2%nat ->
  SimpleType._conditional x c = true ->
  SimpleType._constant x = false ->
  SimpleType.readType c x (a :: b :: rest)
  = inr (SimpleType.set_value (SimpleType.unpack (SimpleType.fmt x) [a; b])
           (SimpleType.set_is_readed true x), rest).
Proof. intros Hw. apply (readType_bytes c x [a; b] rest). now rewrite Hw. Qed.

(** The seven leading bytes of a connection message are taken as they
    come: none of them is checked. *)
Lemma TPDUConnectMessage_read_head (b0 b1 b2 b3 b4 b5 b6 : byte) (s : Stream) :
  TPDUConnectMessage.readType TPDUConnectMessage.init
    (b0 :: b1 :: b2 :: b3 :: b4 :: b5 :: b6 :: s)
  = match Negotiation.readType (Negotiation.init true) s with
    | inl e => inl e
    | inr (neg, rest) =>
        inr (TPDUConnectMessage_read
               (byte.unsigned b0) (byte.unsigned b1)
               (le_combine [b3; b2]) (le_combine [b5; b4]) (byte.unsigned b6) neg,
             rest)
    end.
Proof.
  unfold TPDUConnectMessage.readType, TPDUConnectMessage.__read__, rbind.
  cbn [TPDUConnectMessage.init TPDUConnectMessage.padding TPDUConnectMessage.len
       TPDUConnectMessage.code TPDUConnectMessage.protocolNeg].
  rewrite readType_one by reflexivity. cbv beta iota.
  rewrite readType_one by reflexivity. cbv beta iota.
  rewrite readType_two by reflexivity. cbv beta iota.
  rewrite readType_two by reflexivity. cbv beta iota.
  rewrite readType_one by reflexivity. cbv beta iota.
  destruct (Negotiation.readType (Negotiation.init true) s) as [e | [neg rest]];
    [reflexivity|].
  unfold rret, TPDUConnectMessage_read.
  cbn [SimpleType.unpack SimpleType.fmt UInt8 UInt16Be rev app SimpleType.set_value
       SimpleType.set_is_readed SimpleType._conditional SimpleType._constant
       SimpleType._optional SimpleType._is_readed].
  rewrite !le_combine_one. reflexivity.
Qed.

(** C9: a buffer that ends right after the five padding bytes decodes as a
    connection message; the result is a message, not an exception, and its
    negotiation block is the untouched fresh block, whose [_is_readed] flag
    is false.  The whole buffer is consumed. *)
Theorem TPDUConnectMessage_read_without_negotiation (b0 b1 b2 b3 b4 b5 b6 : byte) :
  exists message,
    TPDUConnectMessage.readType TPDUConnectMessage.init [b0; b1; b2; b3; b4; b5; b6]
    = inr (message, [])
    /\ TPDUConnectMessage.protocolNeg message = Negotiation.init true
    /\ Negotiation._is_readed (TPDUConnectMessage.protocolNeg message) = false
    /\ SimpleType.get (TPDUConnectMessage.len message) = byte.unsigned b0
    /\ SimpleType.get (TPDUConnectMessage.code message) = byte.unsigned b1.
Proof.
  eexists. split; [rewrite TPDUConnectMessage_read_head; reflexivity|].
  repeat split.
Qed.

(** ** Which buffers decode as a negotiation block *)

Lemma readType_short (c : Z) (x : SimpleType.t) (s : Stream) :
  (List.length s < SimpleType.width (SimpleType.fmt x))%nat ->
  SimpleType._conditional x c = true ->
  SimpleType._optional x = false ->
  SimpleType.readType c x s = inl DecodeError.
Proof.
  intros Hl Hc Ho.
  unfold SimpleType.readType, SimpleType.read, SimpleType.__read__, rbind, dataLen.
  rewrite Hc, Ho, andb_false_r. cbn [negb].
  apply Nat.ltb_lt in Hl. now rewrite Hl.
Qed.

Lemma readType_bytes_checked (c : Z) (x : SimpleType.t) (bs rest : Stream) :
  List.length bs = SimpleType.width (SimpleType.fmt x) ->
  SimpleType._conditional x c = true ->
  SimpleType.readType c x (bs ++ rest)
  = if SimpleType._constant x
       && negb (SimpleType.unpack (SimpleType.fmt x) bs =? SimpleType.get x)
    then inl FormatError
    else inr (SimpleType.set_value (SimpleType.unpack (SimpleType.fmt x) bs)
                (SimpleType.set_is_readed true x), rest).
Proof.
  intros Hl Hc.
  pose proof (width_pos (SimpleType.fmt x)) as Hw.
  unfold SimpleType.readType, dataLen. rewrite length_app, Hl.
  replace (SimpleType.width (SimpleType.fmt x) + List.length rest =? 0)%nat with false
    by (symmetry; apply Nat.eqb_neq; lia).
  cbn [andb]. unfold SimpleType.read. rewrite Hc. cbn [negb].
  unfold rbind, SimpleType.__read__, dataLen. rewrite length_app, Hl.
  replace (SimpleType.width (SimpleType.fmt x) + List.length rest
           <? SimpleType.width (SimpleType.fmt x))%nat with false
    by (symmetry; apply Nat.ltb_ge; lia).
  rewrite <- Hl, firstn_length_app, skipn_length_app.
  destruct (SimpleType._constant x && _); reflexivity.
Qed.

Lemma readType_four (c : Z) (x : SimpleType.t) (b0 b1 b2 b3 : byte) (rest : Stream) :
  SimpleType.width (SimpleType.fmt x) = 4%nat ->
  SimpleType._conditional x c = true ->
  SimpleType._constant x = false ->
  SimpleType.readType c x (b0 :: b1 :: b2 :: b3 :: rest)
  = inr (SimpleType.set_value (SimpleType.unpack (SimpleType.fmt x) [b0; b1; b2; b3])
           (SimpleType.set_is_readed true x), rest).
Proof. intros Hw. apply (readType_bytes c x [b0; b1; b2; b3] rest). now rewrite Hw. Qed.

Lemma le_combine_two_is_8 (a b : byte) : le_combine [a; b] = 8 -> a = x08 /\ b = x00.
Proof.
  intros H.
  assert (E : [a; b] = [x08; x00]) by (apply le_combine_inj; [reflexivity | exact H]).
  now inversion E.
Qed.

(** A negotiation block that decodes is either absent (nothing was left in
    the stream) or starts with [code flag 08 00]; four more bytes are
    taken when the code is the response or the failure code, and none
    otherwise. *)
Lemma Negotiation_readType_inv (s : Stream) (neg : Negotiation.t) (rest : Stream) :
  Negotiation.readType (Negotiation.init true) s = inr (neg, rest) ->
  (s = [] /\ rest = [] /\ neg = Negotiation.init true)
  \/ exists c f tail,
       s = c :: f :: x08 :: x00 :: tail
       /\ ((byte.unsigned c = 2 /\ exists b0 b1 b2 b3,
              tail = b0 :: b1 :: b2 :: b3 :: rest
              /\ neg = Negotiation_read true 2 (byte.unsigned f)
                         (le_combine [b0; b1; b2; b3]) 0)
           \/ (byte.unsigned c = 3 /\ exists b0 b1 b2 b3,
              tail = b0 :: b1 :: b2 :: b3 :: rest
              /\ neg = Negotiation_read true 3 (byte.unsigned f) 0
                         (le_combine [b0; b1; b2; b3]))
           \/ (byte.unsigned c <> 2 /\ byte.unsigned c <> 3 /\ tail = rest
               /\ neg = Negotiation_read true (byte.unsigned c) (byte.unsigned f) 0 0)).
Proof.
  destruct s as [|c s].
  { cbn. intros H. injection H as <- <-. left. auto. }
  intros H. right. exists c.
  unfold Negotiation.readType in H. cbn [dataLen List.length Nat.eqb andb] in H.
  unfold Negotiation.__read__, rbind in H.
  rewrite readType_one in H by reflexivity. cbv beta iota in H.
  destruct s as [|f s]; [rewrite readType_nil in H by reflexivity; discriminate|].
  rewrite readType_one in H by reflexivity. cbv beta iota in H.
  destruct s as [|l0 s]; [rewrite readType_nil in H by reflexivity; discriminate|].
  destruct s as [|l1 tail];
    [rewrite readType_short in H by (cbn; auto; lia); discriminate|].
  rewrite (readType_bytes_checked _ _ [l0; l1] tail) in H by reflexivity.
  cbn [SimpleType._constant Negotiation.len Negotiation.init constant UInt16Le andb
       SimpleType.fmt SimpleType.unpack SimpleType.get SimpleType.value SimpleType.call] in H.
  destruct (le_combine [l0; l1] =? 8) eqn:El; cbn [negb] in H; [|discriminate].
  apply Z.eqb_eq in El. destruct (le_combine_two_is_8 _ _ El) as [-> ->].
  exists f, tail. split; [reflexivity|].
  cbn [SimpleType.get SimpleType.set_value SimpleType.value SimpleType.call
       SimpleType.unpack SimpleType.fmt Negotiation.code Negotiation.init UInt8] in H.
  rewrite le_combine_one in H.
  destruct (Z.eq_dec (byte.unsigned c) 2) as [E2 | N2];
    [|destruct (Z.eq_dec (byte.unsigned c) 3) as [E3 | N3]].
  - left. split; [exact E2|]. rewrite E2 in H.
    destruct tail as [|b0 [|b1 [|b2 [|b3 tail]]]];
      try (rewrite readType_short in H by (cbn; auto; lia); discriminate).
    rewrite readType_four in H by reflexivity. cbv beta iota in H.
    rewrite readType_inactive in H by reflexivity. cbv beta iota in H.
    injection H as <- <-. exists b0, b1, b2, b3. split; [reflexivity|].
    unfold Negotiation_read. rewrite !le_combine_one. reflexivity.
  - right. left. split; [exact E3|]. rewrite E3 in H.
    rewrite readType_inactive in H by reflexivity. cbv beta iota in H.
    destruct tail as [|b0 [|b1 [|b2 [|b3 tail]]]];
      try (rewrite readType_short in H by (cbn; auto; lia); discriminate).
    rewrite readType_four in H by reflexivity. cbv beta iota in H.
    injection H as <- <-. exists b0, b1, b2, b3. split; [reflexivity|].
    unfold Negotiation_read. rewrite !le_combine_one. reflexivity.
  - right. right. split; [exact N2|]. split; [exact N3|].
    apply Z.eqb_neq in N2, N3.
    rewrite readType_inactive in H by (auto; exact N2). cbv beta iota in H.
    rewrite readType_inactive in H by (auto; exact N3). cbv beta iota in H.
    injection H as <- <-. split; [reflexivity|].
    unfold Negotiation_read. rewrite !le_combine_one, N2, N3. reflexivity.
Qed.

(** ** Which buffers decode as a connection message *)

Lemma TPDUConnectMessage_readType_inv
  (data : Stream) (message : TPDUConnectMessage.t) (rest : Stream) :
  TPDUConnectMessage.readType TPDUConnectMessage.init data = inr (message, rest) ->
  exists b0 b1 b2 b3 b4 b5 b6 s neg,
    data = b0 :: b1 :: b2 :: b3 :: b4 :: b5 :: b6 :: s
    /\ Negotiation.readType (Negotiation.init true) s = inr (neg, rest)
    /\ message = TPDUConnectMessage_read
                   (byte.unsigned b0) (byte.unsigned b1)
                   (le_combine [b3; b2]) (le_combine [b5; b4]) (byte.unsigned b6) neg.
Proof.
  intros H.
  destruct data as [|b0 [|b1 [|b2 [|b3 [|b4 [|b5 [|b6 s]]]]]]];
    try (exfalso; revert H;
         unfold TPDUConnectMessage.readType, TPDUConnectMessage.__read__, rbind;
         cbn [TPDUConnectMessage.init TPDUConnectMessage.padding TPDUConnectMessage.len
              TPDUConnectMessage.code TPDUConnectMessage.protocolNeg];
         repeat (first [ rewrite readType_one by reflexivity
                       | rewrite readType_two by reflexivity ]; cbv beta iota);
         rewrite readType_short by (cbn; auto; lia); discriminate).
  rewrite TPDUConnectMessage_read_head in H.
  destruct (Negotiation.readType (Negotiation.init true) s) as [e | [neg rest']] eqn:En;
    [discriminate|].
  injection H as <- <-.
  exists b0, b1, b2, b3, b4, b5, b6, s, neg. auto.
Qed.

(** In a decoded connection message the presence flags of the two
    conditional fields are decided by the code of the block, and a
    conditional field that was not read holds the value 0 the constructor
    gave it. *)
Lemma decoded_negotiation_flags
  (data : Stream) (message : TPDUConnectMessage.t) (rest : Stream) :
  TPDUConnectMessage.readType TPDUConnectMessage.init data = inr (message, rest) ->
  let neg := TPDUConnectMessage.protocolNeg message in
  Negotiation._is_readed neg = true ->
  SimpleType._is_readed (Negotiation.selectedProtocol neg)
  = (SimpleType.get (Negotiation.code neg) =? 2)
  /\ SimpleType._is_readed (Negotiation.failureCode neg)
     = (SimpleType.get (Negotiation.code neg) =? 3)
  /\ (SimpleType._is_readed (Negotiation.selectedProtocol neg) = false ->
      SimpleType.get (Negotiation.selectedProtocol neg) = 0).
Proof.
  intros H neg Hr.
  destruct (TPDUConnectMessage_readType_inv _ _ _ H)
    as (b0 & b1 & b2 & b3 & b4 & b5 & b6 & s & neg' & _ & Hn & Hm).
  assert (neg = neg') by (unfold neg; rewrite Hm; reflexivity). subst neg'.
  clearbody neg. clear Hm H.
  destruct (Negotiation_readType_inv _ _ _ Hn)
    as [(_ & _ & E) | (c & f & tail & _ & [(Ec & a0 & a1 & a2 & a3 & _ & E)
                                          | [(Ec & a0 & a1 & a2 & a3 & _ & E)
                                            | (N2 & N3 & _ & E)]])].
  - rewrite E in Hr. discriminate.
  - rewrite E. repeat split. discriminate.
  - rewrite E. repeat split.
  - rewrite E. cbn. apply Z.eqb_neq in N2, N3. rewrite N2, N3. repeat split.
Qed.

(** ** The confirm handler *)

(** Once the buffer has decoded, [recvConnectionConfirm] is the cascade of
    its four checks on the decoded message. *)
Lemma recvConnectionConfirm_decoded
  (data : Stream) (message : TPDUConnectMessage.t) (rest : Stream) (w : TPDU.world) :
  TPDUConnectMessage.readType TPDUConnectMessage.init data = inr (message, rest) ->
  let neg := TPDUConnectMessage.protocolNeg message in
  let adopted :=
    TPDU.mk (TPDU._requestedProtocol (TPDU.self w)) (Negotiation.selectedProtocol neg)
            (TPDU.recv_callback (TPDU.self w)) in
  TPDU.recvConnectionConfirm data w =
    if negb (SimpleType.get (TPDUConnectMessage.code message) =? 0xD0)
    then (inl (InvalidExpectedDataException
                 "invalid TPDU header code X224_TPDU_CONNECTION_CONFIRM != %d"
                 [SimpleType.get (TPDUConnectMessage.code message)]), w)
    else if negb (Negotiation._is_readed neg)
    then (inl (InvalidExpectedDataException
                 "server must support negotiation protocol to use SSL" []), w)
    else if SimpleType._is_readed (Negotiation.failureCode neg)
    then (inl (InvalidExpectedDataException "negotiation failure code %x"
                 [SimpleType.get (Negotiation.failureCode neg)]), w)
    else if negb (SimpleType.get (Negotiation.selectedProtocol neg) =? 1)
    then (inl (InvalidExpectedDataException
                 "only ssl protocol is supported in RDPY version" []),
          TPDU.mkWorld adopted (TPDU.trace w))
    else (inr tt,
          TPDU.mkWorld
            (TPDU.mk (TPDU._requestedProtocol (TPDU.self w))
                     (Negotiation.selectedProtocol neg) TPDU.cb_recvData)
            ((TPDU.trace w ++ [transport_startTLS ClientTLSContext.getContext])
             ++ [presentation_connect])).
Proof.
  intros H neg adopted.
  unfold TPDU.recvConnectionConfirm, TPDU.bind at 1, TPDU.stream_readType.
  rewrite H. cbn [fst]. fold neg. unfold SimpleType.eqb.
  change (SimpleType.get MessageType.X224_TPDU_CONNECTION_CONFIRM) with 0xD0.
  destruct (negb (SimpleType.get (TPDUConnectMessage.code message) =? 0xD0));
    [reflexivity|].
  destruct (negb (Negotiation._is_readed neg)); [reflexivity|].
  destruct (SimpleType._is_readed (Negotiation.failureCode neg)); [reflexivity|].
  cbv beta iota zeta delta
    [TPDU.bind TPDU.set__selectedProtocol TPDU.get_self TPDU.put_self TPDU.raise
     TPDU.emit TPDU.setNextState TPDU.LayerAutomata_connect
     TPDU.self TPDU.trace TPDU._selectedProtocol TPDU._requestedProtocol
     TPDU.recv_callback].
  change (SimpleType.get Protocols.PROTOCOL_SSL) with 1.
  destruct (negb (SimpleType.get (Negotiation.selectedProtocol neg) =? 1));
    reflexivity.
Qed.

Lemma recvConnectionConfirm_decode_error (data : Stream) (e : exn) (w : TPDU.world) :
  TPDUConnectMessage.readType TPDUConnectMessage.init data = inl e ->
  TPDU.recvConnectionConfirm data w = (inl e, w).
Proof.
  intros H. unfold TPDU.recvConnectionConfirm, TPDU.bind, TPDU.stream_readType.
  now rewrite H.
Qed.

Lemma count_startTLS_app (tr1 tr2 : list event) :
  TPDU.count_startTLS (tr1 ++ tr2)
  = (TPDU.count_startTLS tr1 + TPDU.count_startTLS tr2)%nat.
Proof. unfold TPDU.count_startTLS. now rewrite filter_app, length_app. Qed.

(** C1: when the decoded confirm has code [X224_TPDU_CONNECTION_CONFIRM],
    a negotiation block that was read, no failure code read and a selected
    protocol equal to [PROTOCOL_SSL], [recvConnectionConfirm] returns
    normally; it has called [startTLS] on the transport exactly once, then
    notified the presentation layer, and nothing else; the installed
    receive handler is [recvData], so the next buffer goes to it; the
    selected protocol is stored, and the block was a negotiation
    response. *)
Theorem recvConnectionConfirm_ssl_starts_tls
  (data : Stream) (message : TPDUConnectMessage.t) (rest : Stream) (w : TPDU.world) :
  TPDUConnectMessage.readType TPDUConnectMessage.init data = inr (message, rest) ->
  let neg := TPDUConnectMessage.protocolNeg message in
  SimpleType.get (TPDUConnectMessage.code message) = 0xD0 ->
  Negotiation._is_readed neg = true ->
  SimpleType._is_readed (Negotiation.failureCode neg) = false ->
  SimpleType.get (Negotiation.selectedProtocol neg) = 0x00000001 ->
  let r := TPDU.recvConnectionConfirm data w in
  fst r = inr tt
  /\ TPDU.trace (snd r)
     = TPDU.trace w ++ [transport_startTLS ClientTLSContext.getContext; presentation_connect]
  /\ TPDU.count_startTLS (TPDU.trace (snd r)) = S (TPDU.count_startTLS (TPDU.trace w))
  /\ TPDU.recv_callback (TPDU.self (snd r)) = TPDU.cb_recvData
  /\ (forall next, TPDU.recv next (snd r) = TPDU.recvData next (snd r))
  /\ TPDU._selectedProtocol (TPDU.self (snd r)) = Negotiation.selectedProtocol neg
  /\ SimpleType.get (Negotiation.code neg) = 0x02.
Proof.
  intros H neg Hcode Hneg Hfc Hsp r.
  assert (Hr : r = (inr tt,
                    TPDU.mkWorld
                      (TPDU.mk (TPDU._requestedProtocol (TPDU.self w))
                               (Negotiation.selectedProtocol neg) TPDU.cb_recvData)
                      ((TPDU.trace w ++ [transport_startTLS ClientTLSContext.getContext])
                       ++ [presentation_connect]))).
  { unfold r. rewrite (recvConnectionConfirm_decoded _ _ _ _ H). cbv zeta. fold neg.
    rewrite Hcode, Hneg, Hfc, Hsp. reflexivity. }
  rewrite Hr. cbn [fst snd TPDU.trace TPDU.self TPDU.recv_callback TPDU._selectedProtocol].
  rewrite <- app_assoc. cbn [app].
  repeat split.
  - rewrite count_startTLS_app. cbn. lia.
  - destruct (decoded_negotiation_flags _ _ _ H Hneg) as (Hs & _ & Hz). fold neg in Hs, Hz.
    destruct (SimpleType._is_readed (Negotiation.selectedProtocol neg)).
    + symmetry in Hs. now apply Z.eqb_eq in Hs.
    + rewrite Hz in Hsp by reflexivity. discriminate.
Qed.

Lemma recvConnectionConfirm_ssl_starts_tls_witness :
  TPDU.recvConnectionConfirm confirm_ssl awaiting_confirm
  = (inr tt,
     TPDU.mkWorld
       (TPDU.mk Protocols.PROTOCOL_SSL
          (Negotiation.selectedProtocol (Negotiation_read true 2 0 1 0))
          TPDU.cb_recvData)
       [transport_startTLS ClientTLSContext.getContext; presentation_connect])
  /\ TPDU.count_startTLS
       (TPDU.trace (snd (TPDU.recvConnectionConfirm confirm_ssl awaiting_confirm))) = 1%nat.
Proof.
  pose proof (recvConnectionConfirm_ssl_starts_tls confirm_ssl
                (TPDUConnectMessage_read 14 0xD0 0 0 0 (Negotiation_read true 2 0 1 0))
                [] awaiting_confirm eq_refl eq_refl eq_refl eq_refl eq_refl) as H.
  cbv zeta in H. destruct H as (_ & _ & Hc & _).
  split; [reflexivity | exact Hc].
Defined.

(** What the peer put on the wire when the failure code of a decoded
    message was read: a block with code 03 whose last four bytes are the
    failure code, little endian. *)
Lemma decoded_failure_wire
  (data : Stream) (message : TPDUConnectMessage.t) (rest : Stream) :
  TPDUConnectMessage.readType TPDUConnectMessage.init data = inr (message, rest) ->
  let neg := TPDUConnectMessage.protocolNeg message in
  SimpleType._is_readed (Negotiation.failureCode neg) = true ->
  exists b0 b1 b2 b3 b4 b5 b6 f a0 a1 a2 a3,
    data = b0 :: b1 :: b2 :: b3 :: b4 :: b5 :: b6
           :: x03 :: f :: x08 :: x00 :: a0 :: a1 :: a2 :: a3 :: rest
    /\ SimpleType.get (Negotiation.failureCode neg) = le_combine [a0; a1; a2; a3]
    /\ SimpleType.get (Negotiation.code neg) = 0x03.
Proof.
  intros H neg Hfc.
  destruct (TPDUConnectMessage_readType_inv _ _ _ H)
    as (b0 & b1 & b2 & b3 & b4 & b5 & b6 & s & neg' & Hd & Hn & Hm).
  assert (neg = neg') by (unfold neg; rewrite Hm; reflexivity). subst neg'.
  clearbody neg. clear Hm H.
  destruct (Negotiation_readType_inv _ _ _ Hn)
    as [(_ & _ & E) | (c & f & tail & Hs & [(Ec & a0 & a1 & a2 & a3 & Ht & E)
                                           | [(Ec & a0 & a1 & a2 & a3 & Ht & E)
                                             | (N2 & N3 & _ & E)]])].
  - rewrite E in Hfc. discriminate.
  - rewrite E in Hfc. discriminate.
  - exists b0, b1, b2, b3, b4, b5, b6, f, a0, a1, a2, a3.
    assert (c = x03) by (rewrite <- (byte.of_Z_unsigned c), Ec; reflexivity).
    subst c data s tail neg. repeat split.
  - rewrite E in Hfc. cbn in Hfc. apply Z.eqb_eq in Hfc. contradiction.
Qed.

(** C4: when the decoded confirm has a negotiation block whose failure
    code was read, which happens exactly for the failure code 03 on the
    wire, [recvConnectionConfirm] raises the negotiation-failure exception
    with the failure code of the peer as its argument, namely the four
    bytes after the block header in little endian.  The automaton and the
    trace are as before the call: the receive handler is not [recvData]
    unless it already was, and no TLS upgrade was started. *)
Theorem recvConnectionConfirm_negotiation_failure
  (data : Stream) (message : TPDUConnectMessage.t) (rest : Stream) (w : TPDU.world) :
  TPDUConnectMessage.readType TPDUConnectMessage.init data = inr (message, rest) ->
  let neg := TPDUConnectMessage.protocolNeg message in
  SimpleType.get (TPDUConnectMessage.code message) = 0xD0 ->
  Negotiation._is_readed neg = true ->
  SimpleType._is_readed (Negotiation.failureCode neg) = true ->
  let r := TPDU.recvConnectionConfirm data w in
  r = (inl (InvalidExpectedDataException "negotiation failure code %x"
              [SimpleType.get (Negotiation.failureCode neg)]), w)
  /\ SimpleType.get (Negotiation.code neg) = 0x03
  /\ (exists head f a0 a1 a2 a3,
        List.length head = 7%nat
        /\ data = head ++ x03 :: f :: x08 :: x00 :: a0 :: a1 :: a2 :: a3 :: rest
        /\ SimpleType.get (Negotiation.failureCode neg) = le_combine [a0; a1; a2; a3])
  /\ (TPDU.recv_callback (TPDU.self w) <> TPDU.cb_recvData ->
      TPDU.recv_callback (TPDU.self (snd r)) <> TPDU.cb_recvData)
  /\ TPDU.count_startTLS (TPDU.trace (snd r)) = TPDU.count_startTLS (TPDU.trace w).
Proof.
  intros H neg Hcode Hneg Hfc r.
  assert (Hr : r = (inl (InvalidExpectedDataException "negotiation failure code %x"
                           [SimpleType.get (Negotiation.failureCode neg)]), w)).
  { unfold r. rewrite (recvConnectionConfirm_decoded _ _ _ _ H). cbv zeta. fold neg.
    rewrite Hcode, Hneg, Hfc. reflexivity. }
  destruct (decoded_failure_wire _ _ _ H Hfc)
    as (b0 & b1 & b2 & b3 & b4 & b5 & b6 & f & a0 & a1 & a2 & a3 & Hd & Hv & Hc).
  fold neg in Hv, Hc.
  rewrite Hr. cbn [snd].
  split; [reflexivity|]. split; [exact Hc|]. split; [|split; [auto | reflexivity]].
  exists [b0; b1; b2; b3; b4; b5; b6], f, a0, a1, a2, a3. repeat split; assumption.
Qed.

Lemma recvConnectionConfirm_negotiation_failure_witness :
  TPDU.recvConnectionConfirm confirm_failure awaiting_confirm
  = (inl (InvalidExpectedDataException "negotiation failure code %x" [0x00000002]),
     awaiting_confirm).
Proof.
  pose proof (recvConnectionConfirm_negotiation_failure confirm_failure
                (TPDUConnectMessage_read 14 0xD0 0 0 0 (Negotiation_read true 3 0 0 2))
                [] awaiting_confirm eq_refl eq_refl eq_refl eq_refl) as H.
  cbv zeta in H. destruct H as (Hr & _). exact Hr.
Defined.

(** C5: when the decoded message has the confirm code but its negotiation
    block was not read, which happens exactly when the buffer ends after
    the seven leading bytes, [recvConnectionConfirm] raises the
    missing-negotiation exception; the automaton and the trace are as
    before the call, so no TLS upgrade was started. *)
Theorem recvConnectionConfirm_no_negotiation
  (data : Stream) (message : TPDUConnectMessage.t) (rest : Stream) (w : TPDU.world) :
  TPDUConnectMessage.readType TPDUConnectMessage.init data = inr (message, rest) ->
  SimpleType.get (TPDUConnectMessage.code message) = 0xD0 ->
  Negotiation._is_readed (TPDUConnectMessage.protocolNeg message) = false ->
  let r := TPDU.recvConnectionConfirm data w in
  r = (inl (InvalidExpectedDataException
              "server must support negotiation protocol to use SSL" []), w)
  /\ TPDU.count_startTLS (TPDU.trace (snd r)) = TPDU.count_startTLS (TPDU.trace w)
  /\ List.length data = 7%nat.
Proof.
  intros H Hcode Hneg r.
  assert (Hr : r = (inl (InvalidExpectedDataException
                           "server must support negotiation protocol to use SSL" []), w)).
  { unfold r. rewrite (recvConnectionConfirm_decoded _ _ _ _ H). cbv zeta.
    rewrite Hcode, Hneg. reflexivity. }
  rewrite Hr. cbn [snd]. split; [reflexivity|]. split; [reflexivity|].
  destruct (TPDUConnectMessage_readType_inv _ _ _ H)
    as (b0 & b1 & b2 & b3 & b4 & b5 & b6 & s & neg & Hd & Hn & Hm).
  rewrite Hm in Hneg. cbn [TPDUConnectMessage_read TPDUConnectMessage.protocolNeg] in Hneg.
  destruct (Negotiation_readType_inv _ _ _ Hn)
    as [(Hs & _ & _) | (c & f & tail & _ & [(_ & a0 & a1 & a2 & a3 & _ & E)
                                           | [(_ & a0 & a1 & a2 & a3 & _ & E)
                                             | (_ & _ & _ & E)]])];
    try (rewrite E in Hneg; discriminate).
  subst data s. reflexivity.
Qed.

Lemma recvConnectionConfirm_no_negotiation_witness :
  TPDU.recvConnectionConfirm confirm_no_negotiation awaiting_confirm
  = (inl (InvalidExpectedDataException
            "server must support negotiation protocol to use SSL" []),
     awaiting_confirm).
Proof.
  pose proof (recvConnectionConfirm_no_negotiation confirm_no_negotiation
                (TPDUConnectMessage_read 6 0xD0 0 0 0 (Negotiation.init true))
                [] awaiting_confirm eq_refl eq_refl eq_refl) as H.
  cbv zeta in H. destruct H as (Hr & _). exact Hr.
Defined.

(** C6: when the decoded confirm carries a negotiation response (code 02)
    whose selected protocol is not [PROTOCOL_SSL], [recvConnectionConfirm]
    first stores that selected protocol in the automaton and then raises
    the only-ssl exception.  Nothing was called on the transport or on the
    presentation layer: no TLS upgrade, no second request; the receive
    handler is the one that was installed. *)
Theorem recvConnectionConfirm_unsupported_protocol
  (data : Stream) (message : TPDUConnectMessage.t) (rest : Stream) (w : TPDU.world) :
  TPDUConnectMessage.readType TPDUConnectMessage.init data = inr (message, rest) ->
  let neg := TPDUConnectMessage.protocolNeg message in
  SimpleType.get (TPDUConnectMessage.code message) = 0xD0 ->
  Negotiation._is_readed neg = true ->
  SimpleType.get (Negotiation.code neg) = 0x02 ->
  SimpleType.get (Negotiation.selectedProtocol neg) <> 0x00000001 ->
  let r := TPDU.recvConnectionConfirm data w in
  r = (inl (InvalidExpectedDataException
              "only ssl protocol is supported in RDPY version" []),
       TPDU.mkWorld
         (TPDU.mk (TPDU._requestedProtocol (TPDU.self w))
                  (Negotiation.selectedProtocol neg)
                  (TPDU.recv_callback (TPDU.self w)))
         (TPDU.trace w))
  /\ TPDU.trace (snd r) = TPDU.trace w
  /\ TPDU.count_startTLS (TPDU.trace (snd r)) = TPDU.count_startTLS (TPDU.trace w)
  /\ TPDU.recv_callback (TPDU.self (snd r)) = TPDU.recv_callback (TPDU.self w).
Proof.
  intros H neg Hcode Hneg Hrsp Hsp r.
  destruct (decoded_negotiation_flags _ _ _ H Hneg) as (_ & Hf & _). fold neg in Hf.
  rewrite Hrsp in Hf. cbn in Hf.
  apply Z.eqb_neq in Hsp.
  assert (Hr : r = (inl (InvalidExpectedDataException
                           "only ssl protocol is supported in RDPY version" []),
                    TPDU.mkWorld
                      (TPDU.mk (TPDU._requestedProtocol (TPDU.self w))
                               (Negotiation.selectedProtocol neg)
                               (TPDU.recv_callback (TPDU.self w)))
                      (TPDU.trace w))).
  { unfold r. rewrite (recvConnectionConfirm_decoded _ _ _ _ H). cbv zeta. fold neg.
    rewrite Hcode, Hneg, Hf, Hsp. reflexivity. }
  rewrite Hr. repeat split.
Qed.

Lemma recvConnectionConfirm_unsupported_protocol_witness :
  TPDU.recvConnectionConfirm confirm_hybrid awaiting_confirm
  = (inl (InvalidExpectedDataException
            "only ssl protocol is supported in RDPY version" []),
     TPDU.mkWorld
       (TPDU.mk Protocols.PROTOCOL_SSL
          (Negotiation.selectedProtocol (Negotiation_read true 2 0 2 0))
          TPDU.cb_recvConnectionConfirm)
       []).
Proof.
  pose proof (recvConnectionConfirm_unsupported_protocol confirm_hybrid
                (TPDUConnectMessage_read 14 0xD0 0 0 0 (Negotiation_read true 2 0 2 0))
                [] awaiting_confirm eq_refl eq_refl eq_refl eq_refl) as H.
  cbv zeta in H. destruct H as (Hr & _); [discriminate | exact Hr].
Defined.

(** ** Errors of the readers *)

Lemma SimpleType_readType_error (c : Z) (x : SimpleType.t) (s : Stream) (e : exn) :
  SimpleType.readType c x s = inl e -> e = FormatError \/ e = DecodeError.
Proof.
  unfold SimpleType.readType, SimpleType.read, SimpleType.__read__, rbind, rret.
  destruct ((dataLen s =? 0)%nat && SimpleType._optional x); [discriminate|].
  destruct (negb (SimpleType._conditional x c)); [discriminate|].
  destruct (dataLen s <? SimpleType.width (SimpleType.fmt x))%nat.
  - intros H. injection H as <-. now right.
  - destruct (SimpleType._constant x && _); [|discriminate].
    intros H. injection H as <-. now left.
Qed.

Ltac reader_error H :=
  repeat match type of H with
         | context [match SimpleType.readType ?c ?x ?s with _ => _ end] =>
             let E := fresh "E" in
             destruct (SimpleType.readType c x s) as [? | [? ?]] eqn:E;
             [ injection H as <-; exact (SimpleType_readType_error _ _ _ _ E) | ]
         end.

Lemma Negotiation_readType_error (self : Negotiation.t) (s : Stream) (e : exn) :
  Negotiation.readType self s = inl e -> e = FormatError \/ e = DecodeError.
Proof.
  unfold Negotiation.readType, Negotiation.__read__, rbind, rret.
  destruct ((dataLen s =? 0)%nat && Negotiation._optional self); [discriminate|].
  intros H. reader_error H. discriminate.
Qed.

(** Decoding a connection message never raises one of the exceptions of
    the handlers. *)
Lemma TPDUConnectMessage_readType_error (s : Stream) (e : exn) :
  TPDUConnectMessage.readType TPDUConnectMessage.init s = inl e ->
  e = FormatError \/ e = DecodeError.
Proof.
  unfold TPDUConnectMessage.readType, TPDUConnectMessage.__read__, rbind, rret.
  cbn [TPDUConnectMessage.init TPDUConnectMessage.padding TPDUConnectMessage.len
       TPDUConnectMessage.code TPDUConnectMessage.protocolNeg].
  intros H. reader_error H.
  destruct (Negotiation.readType (Negotiation.init true) _) as [? | [? ?]] eqn:Hneg;
    [|discriminate].
  injection H as <-. exact (Negotiation_readType_error _ _ _ Hneg).
Qed.

(** C10: whenever [recvConnectionConfirm] raises the only-ssl exception,
    the buffer had decoded and the [_selectedProtocol] attribute of the
    automaton already holds the [selectedProtocol] field of the decoded
    block, whose value is not the one of [PROTOCOL_SSL]; so an automaton
    that held [PROTOCOL_SSL] before the call no longer holds it after the
    exception.  The two other attributes are as before. *)
Theorem unsupported_protocol_error_keeps_adopted_protocol (data : Stream) (w : TPDU.world) :
  let r := TPDU.recvConnectionConfirm data w in
  fst r = inl (InvalidExpectedDataException
                 "only ssl protocol is supported in RDPY version" []) ->
  exists message rest,
    TPDUConnectMessage.readType TPDUConnectMessage.init data = inr (message, rest)
    /\ TPDU._selectedProtocol (TPDU.self (snd r))
       = Negotiation.selectedProtocol (TPDUConnectMessage.protocolNeg message)
    /\ SimpleType.get (TPDU._selectedProtocol (TPDU.self (snd r)))
       <> SimpleType.get Protocols.PROTOCOL_SSL
    /\ (SimpleType.get (TPDU._selectedProtocol (TPDU.self w))
        = SimpleType.get Protocols.PROTOCOL_SSL ->
        TPDU._selectedProtocol (TPDU.self (snd r)) <> TPDU._selectedProtocol (TPDU.self w))
    /\ TPDU._requestedProtocol (TPDU.self (snd r)) = TPDU._requestedProtocol (TPDU.self w)
    /\ TPDU.recv_callback (TPDU.self (snd r)) = TPDU.recv_callback (TPDU.self w).
Proof.
  intros r Hr.
  destruct (TPDUConnectMessage.readType TPDUConnectMessage.init data)
    as [e | [message rest]] eqn:Hd.
  { exfalso. unfold r in Hr. rewrite (recvConnectionConfirm_decode_error _ _ _ Hd) in Hr.
    cbn [fst] in Hr. injection Hr as ->.
    destruct (TPDUConnectMessage_readType_error _ _ Hd); discriminate. }
  exists message, rest. split; [reflexivity|].
  unfold r in *. clear r.
  rewrite (recvConnectionConfirm_decoded _ _ _ _ Hd) in *. cbv zeta in *.
  destruct (negb (SimpleType.get (TPDUConnectMessage.code message) =? 0xD0));
    [cbn [fst] in Hr; discriminate|].
  destruct (negb (Negotiation._is_readed (TPDUConnectMessage.protocolNeg message)));
    [cbn [fst] in Hr; discriminate|].
  destruct (SimpleType._is_readed
              (Negotiation.failureCode (TPDUConnectMessage.protocolNeg message)));
    [cbn [fst] in Hr; discriminate|].
  destruct (SimpleType.get
              (Negotiation.selectedProtocol (TPDUConnectMessage.protocolNeg message)) =? 1)
    eqn:Hsp; cbn [negb fst] in Hr; [discriminate|].
  cbn [negb snd TPDU.self TPDU._selectedProtocol TPDU._requestedProtocol TPDU.recv_callback].
  apply Z.eqb_neq in Hsp.
  split; [reflexivity|]. split; [exact Hsp|]. split; [|split; reflexivity].
  intros Hw Heq. rewrite Heq in Hsp. contradiction.
Qed.

Lemma unsupported_protocol_error_keeps_adopted_protocol_witness :
  SimpleType.get
    (TPDU._selectedProtocol
       (TPDU.self (snd (TPDU.recvConnectionConfirm confirm_hybrid awaiting_confirm))))
  <> SimpleType.get Protocols.PROTOCOL_SSL.
Proof.
  destruct (unsupported_protocol_error_keeps_adopted_protocol
              confirm_hybrid awaiting_confirm eq_refl) as (m & rest & _ & _ & Hne & _).
  exact Hne.
Defined.

(** ** Connecting *)

(** C2: [connect], whatever handler is installed and so in particular in
    the idle state, makes one call to the transport, with a connection
    message whose code is [X224_TPDU_CONNECTION_REQUEST] (E0) and whose
    negotiation block has code [TYPE_RDP_NEG_REQ] (01) and holds the
    requested protocol as its [selectedProtocol]; on the wire that is the
    length byte 0E, E0, five zero bytes, the block header [01 00 08 00]
    and the four bytes of the requested protocol, little endian.  The
    receive handler installed afterwards is [recvConnectionConfirm]. *)
Theorem connect_sends_connection_request (w : TPDU.world) (v : Z) :
  TPDU._requestedProtocol (TPDU.self w) = UInt32Le (val v) ->
  let r := TPDU.connect w in
  exists message,
    r = (inr tt,
         TPDU.mkWorld
           (TPDU.mk (TPDU._requestedProtocol (TPDU.self w))
                    (TPDU._selectedProtocol (TPDU.self w))
                    TPDU.cb_recvConnectionConfirm)
           (TPDU.trace w ++ [transport_send (TPDUConnectMessage.write message)]))
    /\ TPDUConnectMessage.code message = MessageType.X224_TPDU_CONNECTION_REQUEST
    /\ Negotiation.code (TPDUConnectMessage.protocolNeg message)
       = NegociationType.TYPE_RDP_NEG_REQ
    /\ Negotiation.selectedProtocol (TPDUConnectMessage.protocolNeg message)
       = TPDU._requestedProtocol (TPDU.self w)
    /\ TPDUConnectMessage.write message
       = [x0e; xe0; x00; x00; x00; x00; x00; x01; x00; x08; x00] ++ le_split 4 v
    /\ (forall data, TPDU.recv data (snd r) = TPDU.recvConnectionConfirm data (snd r)).
Proof.
  destruct w as [[requested selected cb] tr].
  cbn [TPDU.self TPDU._requestedProtocol TPDU._selectedProtocol TPDU.trace].
  intros ->.
  exists (TPDUConnectMessage.set_protocolNeg
            (Negotiation.set_selectedProtocol (UInt32Le (val v))
               (Negotiation.set_code NegociationType.TYPE_RDP_NEG_REQ
                  (Negotiation.init true)))
            (TPDUConnectMessage.set_code MessageType.X224_TPDU_CONNECTION_REQUEST
               TPDUConnectMessage.init)).
  repeat split.
Qed.

Lemma connect_sends_connection_request_witness :
  TPDU.connect (TPDU.mkWorld TPDU.__init__ [])
  = (inr tt,
     TPDU.mkWorld
       (TPDU.mk Protocols.PROTOCOL_SSL Protocols.PROTOCOL_SSL TPDU.cb_recvConnectionConfirm)
       [transport_send connection_request_ssl]).
Proof.
  destruct (connect_sends_connection_request (TPDU.mkWorld TPDU.__init__ []) 1 eq_refl)
    as (message & Hr & _ & _ & _ & Hb & _).
  cbv zeta in Hr. rewrite Hr, Hb. reflexivity.
Defined.

(** ** Further facts *)

(** The request that [connect] sends holds a [selectedProtocol] field
    whose predicate is the default one, so the field is written under the
    request code; a reader that uses the schema of [Negotiation] takes the
    block header only and leaves those four bytes in the stream. *)
Remark connection_request_read_back :
  TPDUConnectMessage.readType TPDUConnectMessage.init connection_request_ssl
  = inr (TPDUConnectMessage_read 14 0xE0 0 0 0 (Negotiation_read true 1 0 0 0),
         [x01; x00; x00; x00]).
Proof. reflexivity. Qed.

(** The handshake of the scenario: connect, then the confirm that selects
    TLS; the client ends in the data-exchange state after one request and
    one TLS upgrade. *)
Example handshake_scenario :
  let w1 := snd (TPDU.connect (TPDU.mkWorld TPDU.__init__ [])) in
  let w2 := snd (TPDU.recv confirm_ssl w1) in
  TPDU.trace w2
  = [transport_send connection_request_ssl;
     transport_startTLS ClientTLSContext.getContext;
     presentation_connect]
  /\ TPDU.recv_callback (TPDU.self w2) = TPDU.cb_recvData.
Proof. split; reflexivity. Qed.

(** The failure scenario: the same request answered with failure code 2;
    the client stays in the confirm state. *)
Example failure_scenario :
  let w1 := snd (TPDU.connect (TPDU.mkWorld TPDU.__init__ [])) in
  TPDU.recv confirm_failure w1
  = (inl (InvalidExpectedDataException "negotiation failure code %x" [2]), w1)
  /\ TPDU.recv_callback (TPDU.self w1) = TPDU.cb_recvConnectionConfirm.
Proof. split; reflexivity. Qed.

(** A data header is three bytes long and a connection request fifteen;
    the length byte of the request is the size minus one. *)
Example sizes :
  TPDUDataHeader.sizeof TPDUDataHeader.init = 3
  /\ List.length connection_request_ssl = 15%nat
  /\ List.hd_error connection_request_ssl = Some (byte.of_Z (15 - 1)).
Proof. repeat split. Qed.

(** * Further properties of the layer *)

(** ** Reading a negotiation block from its bytes *)

(** A block with a well-formed header reads as the code commands: four
    more bytes under the response and the failure code, nothing more under
    any other code. *)
Lemma Negotiation_read_block (c f : byte) (tail : Stream) :
  Negotiation.readType (Negotiation.init true) (c :: f :: x08 :: x00 :: tail)
  = if byte.unsigned c =? 2
    then match tail with
         | a0 :: a1 :: a2 :: a3 :: rest =>
             inr (Negotiation_read true 2 (byte.unsigned f)
                    (le_combine [a0; a1; a2; a3]) 0, rest)
         | _ => inl DecodeError
         end
    else if byte.unsigned c =? 3
    then match tail with
         | a0 :: a1 :: a2 :: a3 :: rest =>
             inr (Negotiation_read true 3 (byte.unsigned f) 0
                    (le_combine [a0; a1; a2; a3]), rest)
         | _ => inl DecodeError
         end
    else inr (Negotiation_read true (byte.unsigned c) (byte.unsigned f) 0 0, tail).
Proof.
  unfold Negotiation.readType. cbn [dataLen List.length Nat.eqb andb].
  unfold Negotiation.__read__, rbind.
  rewrite readType_one by reflexivity. cbv beta iota.
  rewrite readType_one by reflexivity. cbv beta iota.
  rewrite (readType_bytes_checked _ _ [x08; x00] tail) by reflexivity.
  change (SimpleType._constant (Negotiation.len (Negotiation.init true))
          && negb (SimpleType.unpack
                     (SimpleType.fmt (Negotiation.len (Negotiation.init true)))
                     [x08; x00]
                   =? SimpleType.get (Negotiation.len (Negotiation.init true))))
    with false.
  cbv beta iota.
  cbn [SimpleType.get SimpleType.set_value SimpleType.value SimpleType.call
       SimpleType.unpack SimpleType.fmt Negotiation.code Negotiation.init UInt8].
  rewrite le_combine_one.
  destruct (Z.eq_dec (byte.unsigned c) 2) as [E2 | N2];
    [|destruct (Z.eq_dec (byte.unsigned c) 3) as [E3 | N3]].
  - rewrite E2. cbn [Z.eqb Pos.eqb].
    destruct tail as [|a0 [|a1 [|a2 [|a3 rest]]]];
      try (rewrite readType_short by (cbn; auto; lia); reflexivity).
    rewrite readType_four by reflexivity. cbv beta iota.
    rewrite readType_inactive by reflexivity. cbv beta iota.
    unfold Negotiation_read, rret. rewrite !le_combine_one. reflexivity.
  - rewrite E3. cbn [Z.eqb Pos.eqb].
    rewrite readType_inactive by reflexivity. cbv beta iota.
    destruct tail as [|a0 [|a1 [|a2 [|a3 rest]]]];
      try (rewrite readType_short by (cbn; auto; lia); reflexivity).
    rewrite readType_four by reflexivity. cbv beta iota.
    unfold Negotiation_read, rret. rewrite !le_combine_one. reflexivity.
  - apply Z.eqb_neq in N2, N3. rewrite N2, N3.
    rewrite readType_inactive by (auto; exact N2). cbv beta iota.
    rewrite readType_inactive by (auto; exact N3). cbv beta iota.
    unfold Negotiation_read, rret. rewrite !le_combine_one, N2, N3. reflexivity.
Qed.

(** The length field of the block is a constant: any other value stops
    the read. *)
Lemma Negotiation_read_bad_len (c f l0 l1 : byte) (tail : Stream) :
  le_combine [l0; l1] <> 8 ->
  Negotiation.readType (Negotiation.init true) (c :: f :: l0 :: l1 :: tail)
  = inl FormatError.
Proof.
  intros Hl.
  unfold Negotiation.readType. cbn [dataLen List.length Nat.eqb andb].
  unfold Negotiation.__read__, rbind.
  rewrite readType_one by reflexivity. cbv beta iota.
  rewrite readType_one by reflexivity. cbv beta iota.
  rewrite (readType_bytes_checked _ _ [l0; l1] tail) by reflexivity.
  cbn [SimpleType._constant Negotiation.len Negotiation.init constant UInt16Le andb
       SimpleType.fmt SimpleType.unpack SimpleType.get SimpleType.value SimpleType.call].
  apply Z.eqb_neq in Hl. rewrite Hl. reflexivity.
Qed.

(** ** Every outcome of the confirm handler *)

(** [recvConnectionConfirm] ends in one of three ways: an exception with
    nothing changed, the only-ssl exception with the selected protocol
    stored, or a normal return with the selected protocol stored, the
    handler set to [recvData] and the two calls made. *)
Lemma recvConnectionConfirm_cases (data : Stream) (w : TPDU.world) :
  (exists e,
     TPDU.recvConnectionConfirm data w = (inl e, w)
     /\ (e = FormatError \/ e = DecodeError
         \/ (exists c, c <> 0xD0 /\ e = invalid_header_code c)
         \/ e = negotiation_required
         \/ exists fc, e = negotiation_failure fc))
  \/ (exists sp,
        SimpleType.get sp <> 1
        /\ TPDU.recvConnectionConfirm data w
           = (inl only_ssl,
              TPDU.mkWorld
                (TPDU.mk (TPDU._requestedProtocol (TPDU.self w)) sp
                         (TPDU.recv_callback (TPDU.self w)))
                (TPDU.trace w)))
  \/ (exists sp,
        SimpleType.get sp = 1
        /\ TPDU.recvConnectionConfirm data w
           = (inr tt,
              TPDU.mkWorld
                (TPDU.mk (TPDU._requestedProtocol (TPDU.self w)) sp TPDU.cb_recvData)
                (TPDU.trace w
                 ++ [transport_startTLS ClientTLSContext.getContext;
                     presentation_connect]))).
Proof.
  destruct (TPDUConnectMessage.readType TPDUConnectMessage.init data)
    as [e | [message rest]] eqn:Hd.
  { left. exists e. split; [now apply recvConnectionConfirm_decode_error|].
    destruct (TPDUConnectMessage_readType_error _ _ Hd); auto. }
  rewrite (recvConnectionConfirm_decoded _ _ _ _ Hd). cbv zeta.
  destruct (Z.eqb_spec (SimpleType.get (TPDUConnectMessage.code message)) 0xD0)
    as [Hc | Hc]; cbn [negb].
  2:{ left. eexists. split; [reflexivity|]. right. right. left. eexists. split; [exact Hc|].
      reflexivity. }
  destruct (Negotiation._is_readed (TPDUConnectMessage.protocolNeg message)); cbn [negb].
  2:{ left. eexists. split; [reflexivity|]. auto. }
  destruct (SimpleType._is_readed
              (Negotiation.failureCode (TPDUConnectMessage.protocolNeg message))).
  { left. eexists. split; [reflexivity|]. do 4 right. eexists. reflexivity. }
  destruct (Z.eqb_spec
              (SimpleType.get
                 (Negotiation.selectedProtocol (TPDUConnectMessage.protocolNeg message))) 1)
    as [Hs | Hs]; cbn [negb].
  - right. right. eexists. split; [exact Hs|]. rewrite <- app_assoc. reflexivity.
  - right. left. eexists. split; [exact Hs|]. reflexivity.
Qed.

Lemma recvData_decode_error (data : Stream) (e : exn) (w : TPDU.world) :
  TPDUDataHeader.readType TPDUDataHeader.init data = inl e ->
  TPDU.recvData data w = (inl e, w).
Proof.
  intros H. unfold TPDU.recvData, TPDU.bind, TPDU.stream_readType. now rewrite H.
Qed.

Lemma recvData_frame (mt : byte) (rest : Stream) (w : TPDU.world) :
  TPDU.recvData (x02 :: mt :: x80 :: rest) w
  = if byte.unsigned mt =? 0xF0
    then (inr tt, TPDU.mkWorld (TPDU.self w) (TPDU.trace w ++ [presentation_recv rest]))
    else if byte.unsigned mt =? 0x70
    then (inl (Exception "receive error from tpdu layer"), w)
    else (inl (InvalidExpectedDataException "unknow tpdu code %s" [byte.unsigned mt]), w).
Proof.
  unfold TPDU.recvData, TPDU.bind, TPDU.stream_readType.
  rewrite TPDUDataHeader_readType_ok. cbn [fst snd]. unfold SimpleType.eqb.
  change (SimpleType.get (TPDUDataHeader.messageType (data_header_read mt)))
    with (byte.unsigned mt).
  change (SimpleType.get MessageType.X224_TPDU_DATA) with 0xF0.
  change (SimpleType.get MessageType.X224_TPDU_ERROR) with 0x70.
  destruct (byte.unsigned mt =? 0xF0); [reflexivity|].
  destruct (byte.unsigned mt =? 0x70); reflexivity.
Qed.

(** The data handler either forwards the rest of a data frame or raises
    with nothing changed. *)
Lemma recvData_cases (data : Stream) (w : TPDU.world) :
  (exists rest,
     data = x02 :: xf0 :: x80 :: rest
     /\ TPDU.recvData data w
        = (inr tt, TPDU.mkWorld (TPDU.self w) (TPDU.trace w ++ [presentation_recv rest])))
  \/ (exists e,
        TPDU.recvData data w = (inl e, w)
        /\ forall rest, data <> x02 :: xf0 :: x80 :: rest).
Proof.
  destruct (TPDUDataHeader.readType TPDUDataHeader.init data) as [e | [h rest]] eqn:Hd.
  { right. exists e. split; [now apply recvData_decode_error|].
    intros rest ->. rewrite TPDUDataHeader_readType_ok in Hd. discriminate. }
  destruct (TPDUDataHeader_readType_inv _ _ _ Hd) as (mt & -> & _).
  rewrite recvData_frame.
  destruct (Z.eqb_spec (byte.unsigned mt) 0xF0) as [E | N].
  - left. exists rest. split; [|reflexivity].
    assert (mt = xf0) by (rewrite <- (byte.of_Z_unsigned mt), E; reflexivity).
    now subst mt.
  - right.
    assert (Hne : forall rest', x02 :: mt :: x80 :: rest <> x02 :: xf0 :: x80 :: rest').
    { intros rest' Heq. injection Heq as -> _. apply N. reflexivity. }
    destruct (byte.unsigned mt =? 0x70); eexists; (split; [reflexivity | exact Hne]).
Qed.

(** ** The confirm handler: rejected and accepted buffers *)

(** X1: a decoded message whose code is not
    [X224_TPDU_CONNECTION_CONFIRM] is refused with the header-code
    exception, which carries the code that was received (the second byte
    of the buffer); the negotiation block is not looked at, and nothing is
    changed or called. *)
Theorem recvConnectionConfirm_wrong_code
  (data : Stream) (message : TPDUConnectMessage.t) (rest : Stream) (w : TPDU.world) :
  TPDUConnectMessage.readType TPDUConnectMessage.init data = inr (message, rest) ->
  SimpleType.get (TPDUConnectMessage.code message) <> 0xD0 ->
  TPDU.recvConnectionConfirm data w
  = (inl (invalid_header_code (SimpleType.get (TPDUConnectMessage.code message))), w)
  /\ exists b0 b1 s,
       data = b0 :: b1 :: s
       /\ SimpleType.get (TPDUConnectMessage.code message) = byte.unsigned b1.
Proof.
  intros H Hc. split.
  - rewrite (recvConnectionConfirm_decoded _ _ _ _ H). cbv zeta.
    apply Z.eqb_neq in Hc. rewrite Hc. reflexivity.
  - destruct (TPDUConnectMessage_readType_inv _ _ _ H)
      as (b0 & b1 & b2 & b3 & b4 & b5 & b6 & s & neg & Hd & _ & Hm).
    exists b0, b1, (b2 :: b3 :: b4 :: b5 :: b6 :: s). split; [exact Hd|].
    rewrite Hm. reflexivity.
Qed.

Lemma recvConnectionConfirm_wrong_code_witness :
  TPDU.recvConnectionConfirm connection_request_ssl awaiting_confirm
  = (inl (invalid_header_code 0xE0), awaiting_confirm).
Proof.
  destruct (recvConnectionConfirm_wrong_code connection_request_ssl
              (TPDUConnectMessage_read 14 0xE0 0 0 0 (Negotiation_read true 1 0 0 0))
              [x01; x00; x00; x00] awaiting_confirm eq_refl) as (Hr & _);
    [discriminate | exact Hr].
Defined.

Lemma le_combine_four_is_1 (a0 a1 a2 a3 : byte) :
  le_combine [a0; a1; a2; a3] = 1 -> a0 = x01 /\ a1 = x00 /\ a2 = x00 /\ a3 = x00.
Proof.
  intros H.
  assert (E : [a0; a1; a2; a3] = [x01; x00; x00; x00])
    by (apply le_combine_inj; [reflexivity | exact H]).
  now inversion E.
Qed.

Lemma byte_of_unsigned (b : byte) (k : Z) : byte.unsigned b = k -> b = byte.of_Z k.
Proof. intros <-. symmetry. apply byte.of_Z_unsigned. Qed.

(** A buffer on which the confirm handler returns normally has the
    confirm code, a response block of length 8 and the protocol 1. *)
Lemma recvConnectionConfirm_accepted_shape (data : Stream) (w : TPDU.world) :
  fst (TPDU.recvConnectionConfirm data w) = inr tt ->
  exists b0 b2 b3 b4 b5 b6 f rest,
    data = b0 :: xd0 :: b2 :: b3 :: b4 :: b5 :: b6
           :: x02 :: f :: x08 :: x00 :: x01 :: x00 :: x00 :: x00 :: rest.
Proof.
  intros H.
  destruct (TPDUConnectMessage.readType TPDUConnectMessage.init data)
    as [e | [message rest]] eqn:Hd.
  { rewrite (recvConnectionConfirm_decode_error _ _ _ Hd) in H. discriminate. }
  rewrite (recvConnectionConfirm_decoded _ _ _ _ Hd) in H. cbv zeta in H.
  destruct (Z.eqb_spec (SimpleType.get (TPDUConnectMessage.code message)) 0xD0)
    as [Hc | _]; cbn [negb] in H; [|discriminate].
  destruct (Negotiation._is_readed (TPDUConnectMessage.protocolNeg message)) eqn:Hn;
    cbn [negb] in H; [|discriminate].
  destruct (SimpleType._is_readed
              (Negotiation.failureCode (TPDUConnectMessage.protocolNeg message))) eqn:Hf;
    [discriminate|].
  destruct (Z.eqb_spec
              (SimpleType.get
                 (Negotiation.selectedProtocol (TPDUConnectMessage.protocolNeg message))) 1)
    as [Hs | _]; cbn [negb] in H; [|discriminate].
  clear H.
  destruct (TPDUConnectMessage_readType_inv _ _ _ Hd)
    as (b0 & b1 & b2 & b3 & b4 & b5 & b6 & s & neg & Hdata & Hneg & Hm).
  rewrite Hm in Hc, Hn, Hf, Hs.
  cbn [TPDUConnectMessage_read TPDUConnectMessage.protocolNeg TPDUConnectMessage.code]
    in Hc, Hn, Hf, Hs.
  change (byte.unsigned b1 = 0xD0) in Hc. apply byte_of_unsigned in Hc.
  change (byte.of_Z 0xD0) with xd0 in Hc.
  destruct (Negotiation_readType_inv _ _ _ Hneg)
    as [(_ & _ & E) | (c & f & tail & Hs' & [(Ec & a0 & a1 & a2 & a3 & Ht & E)
                                            | [(Ec & a0 & a1 & a2 & a3 & Ht & E)
                                              | (N2 & N3 & _ & E)]])];
    rewrite E in Hn, Hf, Hs.
  + discriminate.
  + change (le_combine [a0; a1; a2; a3] = 1) in Hs.
    destruct (le_combine_four_is_1 _ _ _ _ Hs) as (-> & -> & -> & ->).
    apply byte_of_unsigned in Ec. change (byte.of_Z 2) with x02 in Ec.
    subst. exists b0, b2, b3, b4, b5, b6, f, rest. reflexivity.
  + discriminate.
  + cbn in Hs. apply Z.eqb_neq in N2. rewrite N2 in Hs. discriminate.
Qed.

(** X2: the buffers on which [recvConnectionConfirm] returns normally are
    exactly those of the form [b0 D0 b2 b3 b4 b5 b6 02 f 08 00 01 00 00 00]
    followed by anything: the length byte, the five padding bytes, the
    flag byte of the block and whatever follows the block are not
    checked; every other byte is. *)
Theorem recvConnectionConfirm_accepts_iff (data : Stream) (w : TPDU.world) :
  fst (TPDU.recvConnectionConfirm data w) = inr tt
  <-> exists b0 b2 b3 b4 b5 b6 f rest,
        data = b0 :: xd0 :: b2 :: b3 :: b4 :: b5 :: b6
               :: x02 :: f :: x08 :: x00 :: x01 :: x00 :: x00 :: x00 :: rest.
Proof.
  split; [apply recvConnectionConfirm_accepted_shape|].
  intros (b0 & b2 & b3 & b4 & b5 & b6 & f & rest & ->).
  assert (Hd : TPDUConnectMessage.readType TPDUConnectMessage.init
                 (b0 :: xd0 :: b2 :: b3 :: b4 :: b5 :: b6
                  :: x02 :: f :: x08 :: x00 :: x01 :: x00 :: x00 :: x00 :: rest)
               = inr (TPDUConnectMessage_read (byte.unsigned b0) 0xD0
                        (le_combine [b3; b2]) (le_combine [b5; b4]) (byte.unsigned b6)
                        (Negotiation_read true 2 (byte.unsigned f) 1 0), rest)).
  { rewrite TPDUConnectMessage_read_head, Negotiation_read_block. reflexivity. }
  rewrite (recvConnectionConfirm_decoded _ _ _ _ Hd). reflexivity.
Qed.

(** X3: when [recvConnectionConfirm] raises, whatever the exception, it
    has called neither the transport nor the presentation layer, and the
    receive handler and the requested protocol are as before; unless the
    exception is the only-ssl one, the whole object is as before. *)
Theorem recvConnectionConfirm_failure_is_silent
  (data : Stream) (w : TPDU.world) (e : exn) :
  fst (TPDU.recvConnectionConfirm data w) = inl e ->
  let w' := snd (TPDU.recvConnectionConfirm data w) in
  TPDU.trace w' = TPDU.trace w
  /\ TPDU.recv_callback (TPDU.self w') = TPDU.recv_callback (TPDU.self w)
  /\ TPDU._requestedProtocol (TPDU.self w') = TPDU._requestedProtocol (TPDU.self w)
  /\ (e <> only_ssl -> w' = w).
Proof.
  intros H.
  destruct (recvConnectionConfirm_cases data w)
    as [(e' & Hr & _) | [(sp & _ & Hr) | (sp & _ & Hr)]];
    rewrite Hr in *; cbn [fst snd] in *.
  - repeat split.
  - injection H as <-. repeat split. intros Hne. now contradiction Hne.
  - discriminate.
Qed.

Lemma recvConnectionConfirm_failure_is_silent_witness :
  snd (TPDU.recvConnectionConfirm confirm_failure awaiting_confirm) = awaiting_confirm.
Proof.
  destruct (recvConnectionConfirm_failure_is_silent confirm_failure awaiting_confirm
              (negotiation_failure 2) eq_refl) as (_ & _ & _ & Hw).
  apply Hw. discriminate.
Defined.

(** ** The data handler *)

(** X5: [recvData] returns normally exactly on the buffers that start
    with [02 F0 80]; it never changes an attribute of the object, and when
    it raises it has not called the presentation layer either. *)
Theorem recvData_accepts_iff (data : Stream) (w : TPDU.world) :
  let r := TPDU.recvData data w in
  (fst r = inr tt <-> exists rest, data = x02 :: xf0 :: x80 :: rest)
  /\ TPDU.self (snd r) = TPDU.self w
  /\ (fst r <> inr tt -> snd r = w).
Proof.
  cbv zeta.
  destruct (recvData_cases data w) as [(rest & Hd & Hr) | (e & Hr & Hne)];
    rewrite Hr; cbn [fst snd TPDU.self].
  - repeat split.
    + intros _. now exists rest.
    + intros Hc. now contradiction Hc.
  - repeat split.
    + discriminate.
    + intros (rest & Hd). now apply Hne in Hd.
Qed.

(** X6: what [send] hands to the transport is a frame that [recvData]
    accepts, on any object, and [recvData] then delivers exactly the
    payload that was sent. *)
Theorem send_then_recvData (payload : list byte) (sender receiver : TPDU.world) :
  exists frame,
    TPDU.trace (snd (TPDU.send payload sender))
    = TPDU.trace sender ++ [transport_send frame]
    /\ TPDU.recvData frame receiver
       = (inr tt,
          TPDU.mkWorld (TPDU.self receiver)
            (TPDU.trace receiver ++ [presentation_recv payload])).
Proof.
  exists (x02 :: xf0 :: x80 :: payload). split.
  - rewrite send_pair. cbn [snd TPDU.trace]. do 2 f_equal.
  - rewrite recvData_frame. reflexivity.
Qed.

(** ** More buffers that the confirm handler refuses *)

Lemma recvConnectionConfirm_block (b0 b2 b3 b4 b5 b6 c f : byte) (tail : Stream)
  (neg : Negotiation.t) (rest : Stream) :
  Negotiation.readType (Negotiation.init true) (c :: f :: x08 :: x00 :: tail)
  = inr (neg, rest) ->
  TPDUConnectMessage.readType TPDUConnectMessage.init
    (b0 :: xd0 :: b2 :: b3 :: b4 :: b5 :: b6 :: c :: f :: x08 :: x00 :: tail)
  = inr (TPDUConnectMessage_read (byte.unsigned b0) 0xD0
           (le_combine [b3; b2]) (le_combine [b5; b4]) (byte.unsigned b6) neg, rest).
Proof. intros H. rewrite TPDUConnectMessage_read_head, H. reflexivity. Qed.

(** X7: a confirm whose negotiation block carries a code other than the
    response code 02 and the failure code 03 (the request code 01, say) is
    not refused for its code: neither conditional field is read, the
    selected protocol keeps the value 0 of the constructor, the handler
    stores that field and raises the only-ssl exception.  No call is
    made and the receive handler stays. *)
Theorem recvConnectionConfirm_other_negotiation_code
  (b0 b2 b3 b4 b5 b6 c f : byte) (rest : Stream) (w : TPDU.world) :
  byte.unsigned c <> 2 ->
  byte.unsigned c <> 3 ->
  let r := TPDU.recvConnectionConfirm
             (b0 :: xd0 :: b2 :: b3 :: b4 :: b5 :: b6 :: c :: f :: x08 :: x00 :: rest) w in
  fst r = inl only_ssl
  /\ SimpleType.get (TPDU._selectedProtocol (TPDU.self (snd r))) = 0
  /\ SimpleType._is_readed (TPDU._selectedProtocol (TPDU.self (snd r))) = false
  /\ TPDU.trace (snd r) = TPDU.trace w
  /\ TPDU.recv_callback (TPDU.self (snd r)) = TPDU.recv_callback (TPDU.self w).
Proof.
  intros N2 N3 r. apply Z.eqb_neq in N2, N3.
  assert (Hn : Negotiation.readType (Negotiation.init true) (c :: f :: x08 :: x00 :: rest)
               = inr (Negotiation_read true (byte.unsigned c) (byte.unsigned f) 0 0, rest))
    by (rewrite Negotiation_read_block, N2, N3; reflexivity).
  unfold r.
  rewrite (recvConnectionConfirm_decoded _ _ _ _
             (recvConnectionConfirm_block b0 b2 b3 b4 b5 b6 c f rest _ _ Hn)).
  cbv zeta.
  cbn [TPDUConnectMessage_read TPDUConnectMessage.code TPDUConnectMessage.protocolNeg
       Negotiation_read Negotiation._is_readed Negotiation.failureCode
       Negotiation.selectedProtocol SimpleType._is_readed SimpleType.get
       SimpleType.value SimpleType.call].
  rewrite N2, N3. cbn. repeat split.
Qed.

Lemma recvConnectionConfirm_other_negotiation_code_witness :
  fst (TPDU.recvConnectionConfirm
         [x0a; xd0; x00; x00; x00; x00; x00; x01; x00; x08; x00] awaiting_confirm)
  = inl only_ssl.
Proof.
  destruct (recvConnectionConfirm_other_negotiation_code
              x0a x00 x00 x00 x00 x00 x01 x00 [] awaiting_confirm) as (H & _);
    [discriminate | discriminate | exact H].
Defined.

(** X8: the [len] field of the negotiation block is constant: when the
    two bytes after [code] and [flag] are not [08 00], decoding stops with
    the format error of the engine before the handler makes any of its own
    checks, so that is the outcome whatever the message code is; nothing
    is changed or called. *)
Theorem recvConnectionConfirm_bad_negotiation_length
  (b0 b1 b2 b3 b4 b5 b6 c f l0 l1 : byte) (tail : Stream) (w : TPDU.world) :
  le_combine [l0; l1] <> 8 ->
  TPDU.recvConnectionConfirm
    (b0 :: b1 :: b2 :: b3 :: b4 :: b5 :: b6 :: c :: f :: l0 :: l1 :: tail) w
  = (inl FormatError, w).
Proof.
  intros Hl. apply recvConnectionConfirm_decode_error.
  rewrite TPDUConnectMessage_read_head, Negotiation_read_bad_len by exact Hl.
  reflexivity.
Qed.

Lemma recvConnectionConfirm_bad_negotiation_length_witness :
  TPDU.recvConnectionConfirm
    [x0e; xd0; x00; x00; x00; x00; x00; x02; x00; x04; x00; x01; x00; x00; x00]
    awaiting_confirm
  = (inl FormatError, awaiting_confirm).
Proof.
  apply (recvConnectionConfirm_bad_negotiation_length
           x0e xd0 x00 x00 x00 x00 x00 x02 x00 x04 x00 [x01; x00; x00; x00]
           awaiting_confirm).
  discriminate.
Defined.

(** ** The computed length *)

Lemma length_SimpleType_write (c sz : Z) (x : SimpleType.t) :
  Z.of_nat (List.length (SimpleType.write c sz x)) = SimpleType.sizeof c x.
Proof.
  unfold SimpleType.write, SimpleType.sizeof, SimpleType.__sizeof__.
  destruct (SimpleType._conditional x c); [now rewrite length_pack | reflexivity].
Qed.

Lemma SimpleType_sizeof_bounds (c : Z) (x : SimpleType.t) :
  0 <= SimpleType.sizeof c x <= 4.
Proof.
  unfold SimpleType.sizeof, SimpleType.__sizeof__.
  destruct (SimpleType._conditional x c); [|lia].
  destruct (SimpleType.fmt x); cbn; lia.
Qed.

(** The size that [sizeof] announces is the number of bytes that [write]
    produces, whatever the fields hold. *)
Lemma length_Negotiation_write (n : Negotiation.t) :
  Z.of_nat (List.length (Negotiation.write n)) = Negotiation.sizeof n.
Proof.
  unfold Negotiation.write, Negotiation.sizeof, Negotiation.__sizeof__.
  cbv zeta. rewrite !length_app, !Nat2Z.inj_add, !length_SimpleType_write. lia.
Qed.

Lemma Negotiation_sizeof_bounds (n : Negotiation.t) : 0 <= Negotiation.sizeof n <= 20.
Proof.
  unfold Negotiation.sizeof, Negotiation.__sizeof__.
  pose proof (SimpleType_sizeof_bounds (Negotiation.self_code n) (Negotiation.code n)).
  pose proof (SimpleType_sizeof_bounds (Negotiation.self_code n) (Negotiation.flag n)).
  pose proof (SimpleType_sizeof_bounds (Negotiation.self_code n) (Negotiation.len n)).
  pose proof (SimpleType_sizeof_bounds (Negotiation.self_code n)
                (Negotiation.selectedProtocol n)).
  pose proof (SimpleType_sizeof_bounds (Negotiation.self_code n) (Negotiation.failureCode n)).
  lia.
Qed.

(** X9: whatever field is assigned to [code] and whatever block to
    [protocolNeg] of a fresh connection message, the first byte written is
    the number of bytes that follow it: the computed [len] is the size of
    the message minus one, and it always fits the byte. *)
Theorem connection_message_length_byte (c : SimpleType.t) (neg : Negotiation.t) :
  exists b0 tl,
    TPDUConnectMessage.write (TPDUConnectMessage_with c neg) = b0 :: tl
    /\ byte.unsigned b0 = Z.of_nat (List.length tl)
    /\ Z.of_nat (List.length (b0 :: tl))
       = TPDUConnectMessage.sizeof (TPDUConnectMessage_with c neg).
Proof.
  set (m := TPDUConnectMessage_with c neg).
  set (sc := TPDUConnectMessage.self_code m).
  set (sz := TPDUConnectMessage.sizeof m).
  set (tl := SimpleType.write sc sz c
             ++ (SimpleType.write sc sz (UInt16Be (val 0))
                 ++ SimpleType.write sc sz (UInt16Be (val 0))
                 ++ SimpleType.write sc sz (UInt8 (val 0)))
             ++ Negotiation.write neg).
  assert (Hw : TPDUConnectMessage.write m = byte.of_Z (sz - 1) :: tl) by reflexivity.
  assert (Hsz : sz = 1 + SimpleType.sizeof sc c + 5 + Negotiation.sizeof neg).
  { unfold sz, TPDUConnectMessage.sizeof. cbv zeta.
    cbn [m TPDUConnectMessage_with TPDUConnectMessage.set_protocolNeg
         TPDUConnectMessage.set_code TPDUConnectMessage.init TPDUConnectMessage.padding
         TPDUConnectMessage.len TPDUConnectMessage.code TPDUConnectMessage.protocolNeg].
    fold m. fold sc. change (SimpleType.sizeof sc (UInt8 (lazy _))) with 1.
    change (SimpleType.sizeof sc (UInt16Be (val 0))) with 2.
    change (SimpleType.sizeof sc (UInt8 (val 0))) with 1. lia. }
  assert (Htl : Z.of_nat (List.length tl) = sz - 1).
  { unfold tl. rewrite !length_app, !Nat2Z.inj_add, !length_SimpleType_write,
      length_Negotiation_write.
    change (SimpleType.sizeof sc (UInt16Be (val 0))) with 2.
    change (SimpleType.sizeof sc (UInt8 (val 0))) with 1. lia. }
  pose proof (SimpleType_sizeof_bounds sc c).
  pose proof (Negotiation_sizeof_bounds neg).
  exists (byte.of_Z (sz - 1)), tl. split; [exact Hw|]. split.
  - rewrite byte.unsigned_of_Z, Htl. unfold byte.wrap. apply Z.mod_small. lia.
  - cbn [List.length]. rewrite Nat2Z.inj_succ, Htl. lia.
Qed.

(** ** Writing then reading a connection message *)

Lemma unsigned_of_Z_small (z : Z) : 0 <= z < 2 ^ 8 -> byte.unsigned (byte.of_Z z) = z.
Proof. intros H. rewrite byte.unsigned_of_Z. unfold byte.wrap. now apply Z.mod_small. Qed.

(** X10: a connection message with code [c] and a negotiation block of
    code 1, 2 or 3, written and read back into a fresh message, gives the
    same code and the same block (as far as its code lets the block be
    written), zero padding, and a [len] equal to the number of bytes
    written minus one; the bytes after the message stay in the stream. *)
Theorem TPDUConnectMessage_roundtrip (c nc f sp fc : Z) (rest : Stream) :
  0 <= c < 2 ^ 8 ->
  nc = 1 \/ nc = 2 \/ nc = 3 ->
  0 <= f < 2 ^ 8 -> 0 <= sp < 2 ^ 32 -> 0 <= fc < 2 ^ 32 ->
  let m := TPDUConnectMessage_with (UInt8 (val c)) (Negotiation_with true nc f sp fc) in
  TPDUConnectMessage.readType TPDUConnectMessage.init (TPDUConnectMessage.write m ++ rest)
  = inr (TPDUConnectMessage_read
           (Z.of_nat (List.length (TPDUConnectMessage.write m)) - 1) c 0 0 0
           (Negotiation_read true nc f sp fc), rest).
Proof.
  intros Hc Hnc Hf Hsp Hfc m.
  assert (Hw : TPDUConnectMessage.write m
               = byte.of_Z (TPDUConnectMessage.sizeof m - 1) :: byte.of_Z c
                 :: x00 :: x00 :: x00 :: x00 :: x00
                 :: Negotiation.write (Negotiation_with true nc f sp fc)) by reflexivity.
  assert (Hsz : TPDUConnectMessage.sizeof m
                = 7 + Negotiation.sizeof (Negotiation_with true nc f sp fc)) by reflexivity.
  assert (Hl : Z.of_nat (List.length (TPDUConnectMessage.write m))
               = TPDUConnectMessage.sizeof m).
  { rewrite Hw, Hsz. cbn [List.length].
    rewrite !Nat2Z.inj_succ, length_Negotiation_write. lia. }
  assert (Hs : 0 <= TPDUConnectMessage.sizeof m - 1 < 2 ^ 8).
  { pose proof (Negotiation_sizeof_bounds (Negotiation_with true nc f sp fc)).
    rewrite Hsz. lia. }
  rewrite Hl. rewrite Hw. cbn [app].
  rewrite TPDUConnectMessage_read_head.
  rewrite Negotiation_readType_write by assumption.
  rewrite !unsigned_of_Z_small by assumption. reflexivity.
Qed.

Lemma TPDUConnectMessage_roundtrip_witness :
  TPDUConnectMessage.readType TPDUConnectMessage.init
    (TPDUConnectMessage.write
       (TPDUConnectMessage_with (UInt8 (val 0xD0)) (Negotiation_with true 3 0 0 5))
     ++ [x41])
  = inr (TPDUConnectMessage_read 14 0xD0 0 0 0 (Negotiation_read true 3 0 0 5), [x41]).
Proof.
  apply (TPDUConnectMessage_roundtrip 0xD0 3 0 0 5 [x41]);
    [lia | right; right; reflexivity | lia | lia | lia].
Defined.

(** ** Sequences of calls *)

Lemma connect_effect (w : TPDU.world) :
  exists frame,
    TPDU.connect w
    = (inr tt,
       TPDU.mkWorld
         (TPDU.mk (TPDU._requestedProtocol (TPDU.self w))
                  (TPDU._selectedProtocol (TPDU.self w)) TPDU.cb_recvConnectionConfirm)
         (TPDU.trace w ++ [transport_send frame])).
Proof.
  eexists.
  cbv beta iota zeta delta
    [TPDU.connect TPDU.sendConnectionRequest TPDU.bind TPDU.get_self TPDU.put_self
     TPDU.emit TPDU.setNextState TPDU.transport_send_
     TPDU.self TPDU.trace TPDU._selectedProtocol TPDU._requestedProtocol
     TPDU.recv_callback].
  reflexivity.
Qed.

Lemma recv_dispatch (data : Stream) (w : TPDU.world) :
  TPDU.recv data w
  = match TPDU.recv_callback (TPDU.self w) with
    | TPDU.cb_recv =>
        (inr tt, TPDU.mkWorld (TPDU.self w) (TPDU.trace w ++ [presentation_recv data]))
    | TPDU.cb_recvConnectionConfirm => TPDU.recvConnectionConfirm data w
    | TPDU.cb_recvData => TPDU.recvData data w
    end.
Proof. unfold TPDU.recv. now destruct (TPDU.recv_callback (TPDU.self w)). Qed.

(** What one call adds to the trace: the two calls of an accepted confirm,
    or events among which there is neither a TLS upgrade nor a
    notification of the presentation layer. *)
Lemma invoke_effect (c : method_call) (w : TPDU.world) :
  exists evs,
    TPDU.trace (after c w) = TPDU.trace w ++ evs
    /\ TPDU._requestedProtocol (TPDU.self (after c w))
       = TPDU._requestedProtocol (TPDU.self w)
    /\ ((exists data,
           c = call_recv data
           /\ TPDU.recv_callback (TPDU.self w) = TPDU.cb_recvConnectionConfirm
           /\ returned (fst (TPDU.recvConnectionConfirm data w)) = true
           /\ TPDU.recv_callback (TPDU.self (after c w)) = TPDU.cb_recvData
           /\ evs = [transport_startTLS ClientTLSContext.getContext; presentation_connect])
        \/ ((forall data,
               c = call_recv data ->
               TPDU.recv_callback (TPDU.self w) = TPDU.cb_recvConnectionConfirm ->
               returned (fst (TPDU.recvConnectionConfirm data w)) = false)
            /\ (c <> call_connect ->
                TPDU.recv_callback (TPDU.self (after c w))
                = TPDU.recv_callback (TPDU.self w))
            /\ TPDU.count_startTLS evs = 0%nat
            /\ count_presentation_connect evs = 0%nat)).
Proof.
  destruct c as [| data | payload]; unfold after, invoke.
  - destruct (connect_effect w) as (frame & ->). cbn [snd TPDU.trace TPDU.self
      TPDU._requestedProtocol].
    eexists. split; [reflexivity|]. split; [reflexivity|]. right.
    split; [discriminate|]. split; [intros H; now contradiction H|]. split; reflexivity.
  - rewrite recv_dispatch.
    destruct (TPDU.recv_callback (TPDU.self w)) eqn:Hcb.
    + cbn [snd TPDU.trace TPDU.self]. eexists. split; [reflexivity|].
      split; [reflexivity|]. right.
      split; [discriminate|]. split; [now rewrite Hcb|]. split; reflexivity.
    + destruct (recvConnectionConfirm_cases data w)
        as [(e & Hr & _) | [(sp & _ & Hr) | (sp & _ & Hr)]];
        rewrite Hr; cbn [fst snd TPDU.trace TPDU.self TPDU._requestedProtocol
                         TPDU.recv_callback returned].
      * exists []. rewrite app_nil_r. split; [reflexivity|]. split; [reflexivity|]. right.
        split; [|split; [now rewrite Hcb | split; reflexivity]].
        intros d Hd _. injection Hd as <-. now rewrite Hr.
      * exists []. rewrite app_nil_r. split; [reflexivity|]. split; [reflexivity|]. right.
        split; [|split; [now rewrite Hcb | split; reflexivity]].
        intros d Hd _. injection Hd as <-. now rewrite Hr.
      * eexists. split; [reflexivity|]. split; [reflexivity|]. left.
        exists data. rewrite Hr. repeat split.
    + destruct (recvData_cases data w) as [(rest & _ & Hr) | (e & Hr & _)];
        rewrite Hr; cbn [snd TPDU.trace TPDU.self TPDU._requestedProtocol
                         TPDU.recv_callback].
      * eexists. split; [reflexivity|]. split; [reflexivity|]. right.
        split; [intros d _ Hd; discriminate|].
        split; [now rewrite Hcb | split; reflexivity].
      * exists []. rewrite app_nil_r. split; [reflexivity|]. split; [reflexivity|]. right.
        split; [intros d _ Hd; discriminate|].
        split; [now rewrite Hcb | split; reflexivity].
  - rewrite send_pair. cbn [snd TPDU.trace TPDU.self].
    eexists. split; [reflexivity|]. split; [reflexivity|]. right.
    split; [discriminate|]. split; [reflexivity|]. split; reflexivity.
Qed.

Lemma count_presentation_connect_app (tr1 tr2 : list event) :
  count_presentation_connect (tr1 ++ tr2)
  = (count_presentation_connect tr1 + count_presentation_connect tr2)%nat.
Proof. unfold count_presentation_connect. now rewrite filter_app, length_app. Qed.

(** X4: one call of [connect], [recv] or [send] starts a TLS upgrade
    exactly when it is a [recv] that finds [recvConnectionConfirm]
    installed and returns normally, and then it starts exactly one; no
    other call, and no call that raises, ever does. *)
Theorem startTLS_only_on_accepted_confirm (c : method_call) (w : TPDU.world) :
  TPDU.count_startTLS (TPDU.trace (after c w))
  = (TPDU.count_startTLS (TPDU.trace w)
     + match c, TPDU.recv_callback (TPDU.self w) with
       | call_recv data, TPDU.cb_recvConnectionConfirm =>
           if returned (fst (TPDU.recvConnectionConfirm data w)) then 1 else 0
       | _, _ => 0
       end)%nat.
Proof.
  destruct (invoke_effect c w)
    as (evs & Ht & _ & [(data & -> & Hcb & Hret & _ & ->) | (Hno & _ & H0 & _)]).
  - rewrite Ht, count_startTLS_app, Hcb, Hret. reflexivity.
  - rewrite Ht, count_startTLS_app, H0. f_equal.
    destruct c as [| data | payload]; try reflexivity.
    destruct (TPDU.recv_callback (TPDU.self w)) eqn:Hcb; try reflexivity.
    now rewrite (Hno data eq_refl eq_refl).
Qed.

(** X11: no sequence of calls changes the requested protocol: the
    attribute keeps the value that the constructor gave it, while
    [_selectedProtocol] can be overwritten by the peer. *)
Theorem requestedProtocol_is_invariant (cs : list method_call) (w : TPDU.world) :
  TPDU._requestedProtocol (TPDU.self (run cs w)) = TPDU._requestedProtocol (TPDU.self w).
Proof.
  revert w. induction cs as [|c cs IH]; intros w; cbn [run]; [reflexivity|].
  rewrite IH. destruct (invoke_effect c w) as (_ & _ & H & _). exact H.
Qed.

(** X12: over any sequence of calls the trace only grows, and among the
    events added there are as many notifications of the presentation layer
    as TLS upgrades: the layer above is told that the connection is
    established once per upgrade and never without one. *)
Theorem upgrades_and_notifications_are_paired (cs : list method_call) (w : TPDU.world) :
  exists evs,
    TPDU.trace (run cs w) = TPDU.trace w ++ evs
    /\ TPDU.count_startTLS evs = count_presentation_connect evs.
Proof.
  revert w. induction cs as [|c cs IH]; intros w; cbn [run].
  { exists []. now rewrite app_nil_r. }
  destruct (IH (after c w)) as (evs2 & Ht2 & Hc2).
  destruct (invoke_effect c w)
    as (evs1 & Ht1 & _ & [(_ & _ & _ & _ & _ & ->) | (_ & _ & H0 & H1)]);
    exists (evs1 ++ evs2) + exists ([transport_startTLS ClientTLSContext.getContext;
                                     presentation_connect] ++ evs2);
    (split; [rewrite Ht2, Ht1, app_assoc; reflexivity|]);
    rewrite count_startTLS_app, count_presentation_connect_app, Hc2.
  - reflexivity.
  - now rewrite H0, H1.
Qed.

(** X13: as long as [connect] has not been called, the handler that the
    constructor left is never replaced and no TLS upgrade is started,
    whatever buffers arrive and whatever is sent: an upgrade needs a
    request first. *)
Theorem no_upgrade_before_connect (cs : list method_call) (w : TPDU.world) :
  TPDU.recv_callback (TPDU.self w) = TPDU.cb_recv ->
  Forall (fun c => c <> call_connect) cs ->
  TPDU.recv_callback (TPDU.self (run cs w)) = TPDU.cb_recv
  /\ TPDU.count_startTLS (TPDU.trace (run cs w)) = TPDU.count_startTLS (TPDU.trace w).
Proof.
  intros Hcb Hcs. revert w Hcb.
  induction Hcs as [|c cs Hc _ IH]; intros w Hcb; cbn [run]; [now split|].
  destruct (invoke_effect c w)
    as (evs & Ht & _ & [(_ & _ & Hcb' & _) | (_ & Hkeep & H0 & _)]).
  { rewrite Hcb in Hcb'. discriminate. }
  destruct (IH (after c w)) as (IH1 & IH2); [now rewrite (Hkeep Hc)|].
  split; [exact IH1|].
  rewrite IH2, Ht, count_startTLS_app, H0. lia.
Qed.

Lemma no_upgrade_before_connect_witness :
  TPDU.count_startTLS
    (TPDU.trace (run [call_recv confirm_ssl; call_send [x41]]
                     (TPDU.mkWorld TPDU.__init__ []))) = 0%nat.
Proof.
  destruct (no_upgrade_before_connect [call_recv confirm_ssl; call_send [x41]]
              (TPDU.mkWorld TPDU.__init__ []) eq_refl) as (_ & H).
  - repeat constructor; discriminate.
  - exact H.
Defined.

(** X14: a whole session.  From a fresh object, [connect], then any
    accepted confirm, then any data frame: the transport got the request
    and then the TLS upgrade, the presentation layer was told that the
    connection is established and then received exactly the payload of the
    frame; the handler is [recvData]. *)
Theorem handshake_then_data
  (b0 b2 b3 b4 b5 b6 f : byte) (trailing payload : list byte) :
  let confirm := b0 :: xd0 :: b2 :: b3 :: b4 :: b5 :: b6
                 :: x02 :: f :: x08 :: x00 :: x01 :: x00 :: x00 :: x00 :: trailing in
  let w := run [call_connect; call_recv confirm; call_recv (x02 :: xf0 :: x80 :: payload)]
               (TPDU.mkWorld TPDU.__init__ []) in
  TPDU.trace w
  = [transport_send connection_request_ssl;
     transport_startTLS ClientTLSContext.getContext;
     presentation_connect;
     presentation_recv payload]
  /\ TPDU.recv_callback (TPDU.self w) = TPDU.cb_recvData
  /\ SimpleType.get (TPDU._selectedProtocol (TPDU.self w)) = 1.
Proof.
  intros confirm w.
  set (w1 := TPDU.mkWorld
               (TPDU.mk Protocols.PROTOCOL_SSL Protocols.PROTOCOL_SSL
                        TPDU.cb_recvConnectionConfirm)
               [transport_send connection_request_ssl]).
  set (w2 := TPDU.mkWorld
               (TPDU.mk Protocols.PROTOCOL_SSL
                        (Negotiation.selectedProtocol
                           (Negotiation_read true 2 (byte.unsigned f) 1 0))
                        TPDU.cb_recvData)
               [transport_send connection_request_ssl;
                transport_startTLS ClientTLSContext.getContext;
                presentation_connect]).
  assert (H1 : after call_connect (TPDU.mkWorld TPDU.__init__ []) = w1) by reflexivity.
  assert (H2 : after (call_recv confirm) w1 = w2).
  { unfold after. cbn [invoke]. rewrite recv_dispatch.
    cbn [w1 TPDU.recv_callback TPDU.self]. fold w1.
    assert (Hn : Negotiation.readType (Negotiation.init true)
                   (x02 :: f :: x08 :: x00 :: x01 :: x00 :: x00 :: x00 :: trailing)
                 = inr (Negotiation_read true 2 (byte.unsigned f) 1 0, trailing))
      by (rewrite Negotiation_read_block; reflexivity).
    unfold confirm.
    rewrite (recvConnectionConfirm_decoded _ _ _ _
               (recvConnectionConfirm_block b0 b2 b3 b4 b5 b6 x02 f _ _ _ Hn)).
    reflexivity. }
  assert (H3 : after (call_recv (x02 :: xf0 :: x80 :: payload)) w2
               = TPDU.mkWorld (TPDU.self w2) (TPDU.trace w2 ++ [presentation_recv payload])).
  { unfold after. cbn [invoke]. rewrite recv_dispatch.
    cbn [w2 TPDU.recv_callback TPDU.self]. fold w2.
    rewrite recvData_frame. reflexivity. }
  unfold w. cbn [run]. rewrite H1, H2, H3.
  repeat split.
Qed.

(** ** Calls out of order *)

(** X15: [connect] does not look at the state.  Called on any object,
    also one that is exchanging data, it sends a request and installs
    [recvConnectionConfirm]; a data frame that arrives next is parsed as a
    connection message, is refused, and is not delivered to the
    presentation layer. *)
Theorem connect_again_stops_delivery (w : TPDU.world) (payload : list byte) :
  let w1 := after call_connect w in
  let r := TPDU.recv (x02 :: xf0 :: x80 :: payload) w1 in
  TPDU.recv_callback (TPDU.self w1) = TPDU.cb_recvConnectionConfirm
  /\ (exists frame, TPDU.trace w1 = TPDU.trace w ++ [transport_send frame])
  /\ returned (fst r) = false
  /\ TPDU.trace (snd r) = TPDU.trace w1.
Proof.
  intros w1 r.
  assert (Hcb : TPDU.recv_callback (TPDU.self w1) = TPDU.cb_recvConnectionConfirm).
  { unfold w1, after. cbn [invoke]. destruct (connect_effect w) as (frame & ->).
    reflexivity. }
  split; [exact Hcb|]. split.
  { unfold w1, after. cbn [invoke]. destruct (connect_effect w) as (frame & ->).
    now exists frame. }
  unfold r. rewrite recv_dispatch, Hcb.
  destruct (recvConnectionConfirm_cases (x02 :: xf0 :: x80 :: payload) w1)
    as [(e & Hr & _) | [(sp & _ & Hr) | (sp & _ & Hr)]].
  - rewrite Hr. split; reflexivity.
  - rewrite Hr. split; reflexivity.
  - exfalso.
    assert (Ha : fst (TPDU.recvConnectionConfirm (x02 :: xf0 :: x80 :: payload) w1) = inr tt)
      by now rewrite Hr.
    destruct (recvConnectionConfirm_accepted_shape _ _ Ha)
      as (b0 & b2 & b3 & b4 & b5 & b6 & f & rest & Heq).
    discriminate.
Qed.

(** X16: once [recvData] is installed, no sequence of [recv] and [send]
    calls changes any attribute of the object, starts another TLS upgrade
    or notifies the presentation layer of a connection again: only
    [connect] leaves the data-exchange state. *)
Theorem data_exchange_is_stable (cs : list method_call) (w : TPDU.world) :
  TPDU.recv_callback (TPDU.self w) = TPDU.cb_recvData ->
  Forall (fun c => c <> call_connect) cs ->
  TPDU.self (run cs w) = TPDU.self w
  /\ TPDU.count_startTLS (TPDU.trace (run cs w)) = TPDU.count_startTLS (TPDU.trace w)
  /\ count_presentation_connect (TPDU.trace (run cs w))
     = count_presentation_connect (TPDU.trace w).
Proof.
  intros Hcb Hcs. revert w Hcb.
  induction Hcs as [|c cs Hc _ IH]; intros w Hcb; cbn [run]; [repeat split|].
  assert (Hstep : TPDU.self (after c w) = TPDU.self w
                  /\ TPDU.count_startTLS (TPDU.trace (after c w))
                     = TPDU.count_startTLS (TPDU.trace w)
                  /\ count_presentation_connect (TPDU.trace (after c w))
                     = count_presentation_connect (TPDU.trace w)).
  { destruct c as [| data | payload]; [now contradiction Hc | |]; unfold after; cbn [invoke].
    - rewrite recv_dispatch, Hcb.
      destruct (recvData_cases data w) as [(rest & _ & Hr) | (e & Hr & _)];
        rewrite Hr; cbn [snd TPDU.self TPDU.trace]; [|repeat split].
      rewrite count_startTLS_app, count_presentation_connect_app. cbn.
      repeat split; lia.
    - rewrite send_pair. cbn [snd TPDU.self TPDU.trace].
      rewrite count_startTLS_app, count_presentation_connect_app. cbn.
      repeat split; lia. }
  destruct Hstep as (Hs & Ht & Hp).
  destruct (IH (after c w)) as (IH1 & IH2 & IH3); [now rewrite Hs|].
  rewrite IH1, IH2, IH3. auto.
Qed.

Lemma data_exchange_is_stable_witness :
  TPDU.self (run [call_recv confirm_ssl; call_send [x41];
                  call_recv [x02; xf0; x80; x42]] data_exchange)
  = TPDU.self data_exchange.
Proof.
  destruct (data_exchange_is_stable
              [call_recv confirm_ssl; call_send [x41]; call_recv [x02; xf0; x80; x42]]
              data_exchange eq_refl) as (H & _).
  - repeat constructor; discriminate.
  - exact H.
Defined.
